(** * Person records API: bulk import, validation and listing

    A shallow embedding of [app.py] (the Flask application) and the
    properties of its row validator, import loop and list endpoint.

    Conventions of the embedding.
    - A Python [dict] with string keys is a [gmap string _].
    - Python integers are unbounded: [Z].
    - Text is a [string] of bytes.  The character classes used by [int()]
      and [str.lower()] are modelled on the ASCII range; bytes above 127
      are ordinary characters (neither blank nor digit nor cased).
    - A call that may raise returns a [result]; a [try]/[except] is the
      [match] on it, with [handles] for the classes an [except] lists.
    - Code that mutates an object returns the object as it leaves it.
    - What the interpreter, pandas, werkzeug, the uuid source and Firestore
      decide is taken as an argument (the parsed table, the sanitised file
      name, the stream of identifiers, the faults of the store). *)

From Stdlib Require Import ZArith QArith Qround String Ascii List Lia.
From Stdlib Require Import Floats.SpecFloat.
From stdpp Require Import gmap strings list fin_maps pretty sorting.

Local Open Scope string_scope.
Local Open Scope Z_scope.

(** ** Python values and exceptions *)

Inductive exn_class :=
| ValueError
| TypeError
| OverflowError
| ZeroDivisionError
| KeyError
| AttributeError
| LibraryError.

#[global] Instance exn_class_eq_dec : EqDecision exn_class.
Proof. solve_decision. Defined.

Record exn := Exn { exn_kind : exn_class; exn_text : string }.

(** [str(e)] of an exception is its message. *)
Definition str_exn (e : exn) : string := exn_text e.

Inductive result (A : Type) :=
| Return (a : A)
| Raise (e : exn).
Arguments Return {A} a.
Arguments Raise {A} e.

(** The values a cell of a parsed table (or a stored document) can hold. *)
Inductive value :=
| VNone
| VBool (b : bool)
| VInt (z : Z)
| VFloat (f : spec_float)
| VStr (s : string).

#[global] Instance spec_float_eq_dec : EqDecision spec_float.
Proof. solve_decision. Defined.

#[global] Instance value_eq_dec : EqDecision value.
Proof. solve_decision. Defined.

(** *** [int(x)] *)

(** Blank characters skipped around an integer literal: TAB to CR and the
    space. *)
Definition is_space (c : ascii) : bool :=
  let n := nat_of_ascii c in
  (((9 <=? n) && (n <=? 13)) || (n =? 32))%nat.

Definition digit_of (c : ascii) : option Z :=
  let n := nat_of_ascii c in
  if ((48 <=? n) && (n <=? 57))%nat then Some (Z.of_nat (n - 48)) else None.

Fixpoint lstrip (l : list ascii) : list ascii :=
  match l with
  | c :: l' => if is_space c then lstrip l' else l
  | [] => []
  end.

Definition strip (l : list ascii) : list ascii :=
  rev (lstrip (rev (lstrip l))).

(** Decimal digits, single underscores allowed between two digits.
    [after_digit] tells whether the previous character was a digit. *)
Fixpoint int_digits (acc : Z) (after_digit : bool) (l : list ascii) : option Z :=
  match l with
  | [] => if after_digit then Some acc else None
  | c :: l' =>
      match digit_of c with
      | Some d => int_digits (10 * acc + d) true l'
      | None =>
          if Ascii.eqb c "_"%char && after_digit
          then int_digits acc false l'
          else None
      end
  end.

(** The interpreter's default bound on the number of digits of a decimal
    literal that [int] converts ([sys.int_info.default_max_str_digits]). *)
Definition int_max_str_digits : nat := 4300.

Fixpoint count_digits (l : list ascii) : nat :=
  match l with
  | [] => 0%nat
  | c :: l' =>
      match digit_of c with
      | Some _ => S (count_digits l')
      | None => count_digits l'
      end
  end.

(** The literal after the blanks were stripped and the sign read; a
    literal with more digits than the bound is refused. *)
Definition int_unsigned (l : list ascii) : option Z :=
  if (int_max_str_digits <? count_digits l)%nat then None
  else int_digits 0 false l.

Definition int_literal (l : list ascii) : option Z :=
  match strip l with
  | c :: l' =>
      if Ascii.eqb c "-"%char then Z.opp <$> int_unsigned l'
      else if Ascii.eqb c "+"%char then int_unsigned l'
      else int_unsigned (c :: l')
  | [] => None
  end.

(** Truncation of a float towards zero. *)
Definition float_trunc (f : spec_float) : result Z :=
  match f with
  | S754_zero _ => Return 0
  | S754_infinity _ =>
      Raise (Exn OverflowError "cannot convert float infinity to integer")
  | S754_nan => Raise (Exn ValueError "cannot convert float NaN to integer")
  | S754_finite s m e =>
      let mag := Z.shiftl (Z.pos m) e in
      Return (if s then - mag else mag)
  end.

(** [int(x)].  The text of the [ValueError] for a string quotes the
    literal; every handler of this program discards it. *)
Definition py_int (x : value) : result Z :=
  match x with
  | VNone =>
      Raise (Exn TypeError
        "int() argument must be a string, a bytes-like object or a real number, not 'NoneType'")
  | VBool b => Return (if b then 1 else 0)
  | VInt z => Return z
  | VFloat f => float_trunc f
  | VStr s =>
      match int_literal (list_ascii_of_string s) with
      | Some z => Return z
      | None =>
          Raise (Exn ValueError
            ("invalid literal for int() with base 10: '" +:+ s +:+ "'"))
      end
  end.

(** *** [bool(x)]: truth value testing; it raises for no value. *)
Definition py_bool (x : value) : bool :=
  match x with
  | VNone => false
  | VBool b => b
  | VInt z => negb (Z.eqb z 0)
  | VFloat (S754_zero _) => false
  | VFloat _ => true
  | VStr s => negb (String.eqb s EmptyString)
  end.

(** [isinstance(x, str)] *)
Definition is_str (x : value) : bool :=
  match x with VStr _ => true | _ => false end.

(** [d[k]] *)
Definition getitem (d : gmap string value) (k : string) : result value :=
  match d !! k with
  | Some v => Return v
  | None => Raise (Exn KeyError ("'" +:+ k +:+ "'"))
  end.

(** ** The row validator *)

Definition required_fields : list string :=
  [ "name"; "last_name"; "email"; "age"; "sex";
    "address"; "country"; "degree"; "university"; "status" ].

Definition msg_missing (field : string) : string :=
  "Campo requerido faltante: " +:+ field.

Definition msg_types : string :=
  "Los campos 'age' y 'status' deben ser numéricos/booleanos".

Definition msg_valid : string := "Datos válidos".

(** The [for field in required_fields] loop: the first field that is not a
    key of [data], if any. *)
Fixpoint first_missing (fields : list string) (data : gmap string value)
    : option string :=
  match fields with
  | [] => None
  | field :: rest =>
      if bool_decide (data !! field = None) then Some field
      else first_missing rest data
  end.

(** The body of the [try] block: the two assignments, in order, on the
    dictionary that was passed in.  The dictionary is returned as the block
    leaves it, with the exception that ended the block, if any. *)
Definition coerce_types (data : gmap string value)
    : gmap string value * option exn :=
  match getitem data "age" with
  | Raise e => (data, Some e)
  | Return a =>
      match py_int a with
      | Raise e => (data, Some e)
      | Return n =>
          let data := <["age" := VInt n]> data in
          match getitem data "status" with
          | Raise e => (data, Some e)
          | Return s =>
              let b := if is_str s then py_bool s else py_bool s in
              (<["status" := VBool b]> data, None)
          end
      end
  end.

Definition handles (classes : list exn_class) (e : exn) : bool :=
  existsb (fun c => bool_decide (c = exn_kind e)) classes.

(** [validate_persona_data(data)]: the dictionary as the call leaves it
    (the caller keeps using the same object), and either the returned pair
    or the exception that the handler does not list. *)
Definition validate_persona_data (data : gmap string value)
    : gmap string value * result (bool * string) :=
  match first_missing required_fields data with
  | Some field => (data, Return (false, msg_missing field))
  | None =>
      match coerce_types data with
      | (data', None) => (data', Return (true, msg_valid))
      | (data', Some e) =>
          if handles [ValueError; TypeError] e
          then (data', Return (false, msg_types))
          else (data', Raise e)
      end
  end.

(** ** Responses *)

(** The values that occur in the JSON bodies of this program. *)
Inductive jval :=
| JBool (b : bool)
| JInt (z : Z)
| JStr (s : string)
| JStrs (l : list string)
| JDoc (d : gmap string value)
| JDocs (l : list (gmap string value))
| JNums (p : gmap string Z).

(** [jsonify(body), status] *)
Definition response : Type := gmap string jval * Z.

Definition body (r : response) : gmap string jval := fst r.
Definition status (r : response) : Z := snd r.

Definition failure (message : string) (code : Z) : response :=
  (<["success" := JBool false]> (<["message" := JStr message]> ∅), code).

(** ** File names *)

Definition ALLOWED_EXTENSIONS : list string := [ "csv" ].

Definition lower_char (c : ascii) : ascii :=
  let n := nat_of_ascii c in
  if ((65 <=? n) && (n <=? 90))%nat then ascii_of_nat (n + 32) else c.

Fixpoint lower (s : string) : string :=
  match s with
  | EmptyString => EmptyString
  | String c s' => String (lower_char c) (lower s')
  end.

(** [filename.rsplit('.', 1)[1]]: the text after the last dot; [None]
    when [filename] has no dot. *)
Fixpoint after_last_dot (filename : string) : option string :=
  match filename with
  | EmptyString => None
  | String c rest =>
      match after_last_dot rest with
      | Some ext => Some ext
      | None => if Ascii.eqb c "."%char then Some rest else None
      end
  end.

Definition allowed_file (filename : string) : bool :=
  match after_last_dot filename with
  | Some ext => bool_decide (lower ext ∈ ALLOWED_EXTENSIONS)
  | None => false
  end.

(** ** The identifier generator *)

(** [str(uuid.uuid4().hex[:20])], from the 32 hexadecimal digits drawn. *)
Definition generate_custom_id (uuid4_hex : string) : string :=
  substring 0 20 uuid4_hex.

(** ** The document store *)

(** The collection [personas]: documents by identifier.  [None] is the
    client that [initialize_firebase] returns when it fails. *)
Definition db_client : Type := option (gmap string (gmap string value)).

Definition no_client : exn :=
  Exn AttributeError "'NoneType' object has no attribute 'collection'".

(** [db.collection('personas').document(id).set(data)]; [fault] is the
    exception the store raises for this call, if it does. *)
Definition document_set (fault : option exn) (db : db_client)
    (id : string) (data : gmap string value) : result db_client :=
  match db with
  | None => Raise no_client
  | Some docs =>
      match fault with
      | Some e => Raise e
      | None => Return (Some (<[id := data]> docs))
      end
  end.

(** ** The import endpoint *)

(** The uploaded part [request.files['file']]. *)
Record upload := Upload { filename : string; content : string }.

(** What the process can change: the files of the upload folder (by path),
    the store, and how many identifiers were drawn so far. *)
Record world := World {
  files : gmap string string;
  db : db_client;
  drawn : nat
}.

(** The state of the loop over the rows. *)
Record loop_state := LoopState {
  inserted_count : nat;
  errors : list string;
  loop_db : db_client;
  loop_drawn : nat
}.

(** [f"Fila {n}: {text}"] *)
Definition fila (n : nat) (text : string) : string :=
  "Fila " +:+ pretty n +:+ ": " +:+ text.

Definition add_error (ls : loop_state) (entry : string) : loop_state :=
  LoopState (inserted_count ls) (errors ls ++ [entry]) (loop_db ls) (loop_drawn ls).

(** [os.path.join(app.config['UPLOAD_FOLDER'], secure_filename(file.filename))] *)
Definition saved_path (secure_filename : string -> string) (file : upload)
    : string :=
  "uploads/" +:+ secure_filename (filename file).

Section ImportEndpoint.

(** [werkzeug.utils.secure_filename] *)
Variable secure_filename : string -> string.

(** [pd.read_csv(path)] followed by [to_dict('records')], as a function of
    the content of the file: the rows in file order, or the exception. *)
Variable read_csv : string -> result (list (gmap string value)).

(** The hexadecimal digits of the [k]-th [uuid.uuid4()] of the process. *)
Variable uuid4_hex : nat -> string.

(** The exception, if any, that the store raises for the write of the row
    at [index]. *)
Variable set_fault : nat -> option exn.

(** One iteration of [for index, persona_data in enumerate(personas_data)]. *)
Definition import_row (index : nat) (persona_data : gmap string value)
    (ls : loop_state) : loop_state :=
  match validate_persona_data persona_data with
  | (_, Raise e) => add_error ls (fila (index + 2) (str_exn e))
  | (persona_data, Return (is_valid, validation_message)) =>
      if negb is_valid
      then add_error ls (fila (index + 2) validation_message)
      else
        let custom_id := generate_custom_id (uuid4_hex (loop_drawn ls)) in
        let ls := LoopState (inserted_count ls) (errors ls) (loop_db ls)
                    (S (loop_drawn ls)) in
        match document_set (set_fault index) (loop_db ls) custom_id persona_data with
        | Raise e => add_error ls (fila (index + 2) (str_exn e))
        | Return db' =>
            LoopState (S (inserted_count ls)) (errors ls) db' (loop_drawn ls)
        end
  end.

Fixpoint import_rows (index : nat) (personas_data : list (gmap string value))
    (ls : loop_state) : loop_state :=
  match personas_data with
  | [] => ls
  | persona_data :: rest =>
      import_rows (S index) rest (import_row index persona_data ls)
  end.

(** The response built after the loop. *)
Definition import_response (inserted_count : nat) (errors : list string)
    (total : nat) : response :=
  let response_data : gmap string jval :=
    <["success" := JBool true]>
    (<["message" := JStr ("Se insertaron " +:+ pretty inserted_count
                          +:+ " registros exitosamente")]>
    (<["inserted_count" := JInt (Z.of_nat inserted_count)]>
    (<["total_records" := JInt (Z.of_nat total)]> ∅))) in
  let response_data :=
    match errors with
    | [] => response_data
    | _ :: _ =>
        <["message" := JStr ("Se insertaron " +:+ pretty inserted_count
                             +:+ " de " +:+ pretty total +:+ " registros")]>
        (<["errors" := JStrs errors]> response_data)
    end in
  (response_data, if (0 <? inserted_count)%nat then 200 else 400).

(** [upload_personas_csv()].  [file] is [request.files.get('file')];
    [save_fault] is the exception that [file.save] raises, if it does. *)
Definition upload_personas_csv (file : option upload)
    (save_fault : option exn) (w : world) : world * response :=
  match file with
  | None => (w, failure "No se encontró el archivo en la solicitud" 400)
  | Some file =>
      if String.eqb (filename file) EmptyString
      then (w, failure "No se seleccionó ningún archivo" 400)
      else if negb (allowed_file (filename file))
      then (w, failure
             "Tipo de archivo no permitido. Solo se aceptan archivos CSV" 400)
      else
        let file_path := saved_path secure_filename file in
        match save_fault with
        | Some e => (w, failure ("Error en el servidor: " +:+ str_exn e) 500)
        | None =>
            let w := World (<[file_path := content file]> (files w)) (db w) (drawn w) in
            match read_csv (content file) with
            | Raise e =>
                (w, failure ("Error leyendo el archivo CSV: " +:+ str_exn e) 400)
            | Return personas_data =>
                let ls := import_rows 0 personas_data
                            (LoopState 0 [] (db w) (drawn w)) in
                let w := World (delete file_path (files w)) (loop_db ls) (loop_drawn ls) in
                (w, import_response (inserted_count ls) (errors ls)
                      (length personas_data))
            end
        end
  end.

End ImportEndpoint.

(** ** The read endpoints *)

(** [request.args.get(key, default=default, type=int)]: the default when
    the parameter is absent or is not an integer literal. *)
Definition args_get_int (arg : option string) (default : Z) : Z :=
  match arg with
  | None => default
  | Some s =>
      match py_int (VStr s) with
      | Return z => z
      | Raise _ => default
      end
  end.

(** [a // b] *)
Definition floordiv (a b : Z) : result Z :=
  if Z.eqb b 0
  then Raise (Exn ZeroDivisionError "integer division or modulo by zero")
  else Return (a / b).

(** [if limit > 10: limit = 10] *)
Definition clamp_limit (limit : Z) : Z :=
  if 10 <? limit then 10 else limit.

(** [(total_count + limit - 1) // limit] *)
Definition page_count (total_count limit : Z) : result Z :=
  floordiv (total_count + limit - 1) limit.

(** [doc.to_dict()] with [person_data['id'] = doc.id]. *)
Definition with_id (doc : string * gmap string value) : gmap string value :=
  <["id" := VStr (fst doc)]> (snd doc).

Section ListEndpoint.

(** [persons_ref.offset(offset).limit(limit).stream()], consumed: the
    documents (identifier and fields) of the page, or the exception of
    the store. *)
Variable stream_page :
  gmap string (gmap string value) -> Z -> Z ->
  result (list (string * gmap string value)).

(** [get_persons()]; the arguments are the query parameters. *)
Definition get_persons (limit_arg page_arg : option string) (db : db_client)
    : response :=
  let server_error (e : exn) :=
    failure ("Error getting persons: " +:+ str_exn e) 500 in
  let limit := args_get_int limit_arg 10 in
  let page := args_get_int page_arg 1 in
  let limit := clamp_limit limit in
  match db with
  | None => server_error no_client
  | Some docs =>
      let offset := (page - 1) * limit in
      match stream_page docs offset limit with
      | Raise e => server_error e
      | Return page_docs =>
          let persons_list := map with_id page_docs in
          let total_count := Z.of_nat (size docs) in
          match page_count total_count limit with
          | Raise e => server_error e
          | Return pages =>
              (<["success" := JBool true]>
               (<["data" := JDocs persons_list]>
               (<["pagination" :=
                    JNums (<["total" := total_count]>
                          (<["page" := page]>
                          (<["limit" := limit]>
                          (<["pages" := pages]> ∅))))]> ∅)), 200)
          end
      end
  end.

End ListEndpoint.

(** [get_person(person_id)].  [read_fault] is the exception that reading
    the document ([doc_ref.get()]) or building the answer raises, if one
    does. *)
Definition get_person (read_fault : option exn) (person_id : string)
    (db : db_client) : response :=
  let server_error (e : exn) :=
    failure ("Error getting person: " +:+ str_exn e) 500 in
  match db with
  | None => server_error no_client
  | Some docs =>
      match read_fault with
      | Some e => server_error e
      | None =>
          match docs !! person_id with
          | Some fields =>
              (<["success" := JBool true]>
               (<["data" := JDoc (with_id (person_id, fields))]> ∅), 200)
          | None => failure "Person not found" 404
          end
      end
  end.

(** ** The write endpoints on one document *)

Definition done_response (message : string) : response :=
  (<["success" := JBool true]> (<["message" := JStr message]> ∅), 200).

Section UpdateEndpoint.

(** The type of a decoded JSON body. *)
Variable Body : Type.

(** [doc_ref.update(data)] on a document that exists: its fields after the
    call, or the exception that the client or the store raises. *)
Variable doc_update :
  gmap string value -> Body -> result (gmap string value).

(** [update_person(person_id)].  [json] is [request.json]: the decoded
    body, or the exception raised while reading it. *)
Definition update_person (person_id : string) (json : result Body)
    (db : db_client) : db_client * response :=
  let server_error (e : exn) :=
    failure ("Error updating person: " +:+ str_exn e) 500 in
  match json with
  | Raise e => (db, server_error e)
  | Return data =>
      match db with
      | None => (db, server_error no_client)
      | Some docs =>
          match docs !! person_id with
          | Some fields =>
              match doc_update fields data with
              | Raise e => (db, server_error e)
              | Return fields' =>
                  (Some (<[person_id := fields']> docs),
                   done_response "Person updated successfully")
              end
          | None => (db, failure "Person not found" 404)
          end
      end
  end.

End UpdateEndpoint.

(** [delete_person(person_id)].  [read_fault] is the exception that
    [doc_ref.get()] raises, if it does, and [delete_fault] the one that
    [doc_ref.delete()] raises, if it does. *)
Definition delete_person (read_fault delete_fault : option exn)
    (person_id : string) (db : db_client) : db_client * response :=
  let server_error (e : exn) :=
    failure ("Error deleting person: " +:+ str_exn e) 500 in
  match db with
  | None => (db, server_error no_client)
  | Some docs =>
      match read_fault with
      | Some e => (db, server_error e)
      | None =>
          match docs !! person_id with
          | Some _ =>
              match delete_fault with
              | Some e => (db, server_error e)
              | None =>
                  (Some (delete person_id docs),
                   done_response "Person deleted successfully")
              end
          | None => (db, failure "Person not found" 404)
          end
      end
  end.

(** ** The client of the store *)

(** [initialize_firebase()]: the client that the SDK returns, or [None]
    when reading the credentials or starting the SDK raises. *)
Definition initialize_firebase
    (connect : result (gmap string (gmap string value))) : db_client :=
  match connect with
  | Return client => Some client
  | Raise _ => None
  end.

(** ** Vocabulary of the statements *)

(** All ten required fields are keys of the row. *)
Definition all_present (data : gmap string value) : Prop :=
  Forall (fun field => is_Some (data !! field)) required_fields.

#[global] Instance all_present_dec data : Decision (all_present data).
Proof. unfold all_present. apply _. Defined.

(** The validator accepts the row (it returns [True] as first component). *)
Definition accepted_by_validator (data : gmap string value) : bool :=
  match snd (validate_persona_data data) with
  | Return (true, _) => true
  | _ => false
  end.

(** The row violates the required-field or the coercion rules: one of the
    ten required fields is not a key of it, or its age is a value that
    [int] refuses.  (No value is refused as a status: [bool] accepts every
    value.) *)
Definition violates (data : gmap string value) : bool :=
  negb (bool_decide (all_present data))
  || match data !! "age" with
     | Some a =>
         match py_int a with
         | Return _ => false
         | Raise _ => true
         end
     | None => true
     end.

Fixpoint count_if {A} (p : A -> bool) (l : list A) : nat :=
  match l with
  | [] => 0%nat
  | x :: l' => ((if p x then 1 else 0) + count_if p l')%nat
  end.

(** The reason for which the row at [index] is not stored, if it is not:
    the validator's message, the text of the exception that left the
    validator, or the text of the exception of the write.  [client] tells
    whether the store client exists. *)
Definition row_error (set_fault : nat -> option exn) (client : bool)
    (index : nat) (data : gmap string value) : option string :=
  match snd (validate_persona_data data) with
  | Raise e => Some (str_exn e)
  | Return (false, validation_message) => Some validation_message
  | Return (true, _) =>
      if client then str_exn <$> set_fault index
      else Some (str_exn no_client)
  end.

(** Whether the store client exists in a loop state. *)
Definition client_of (ls : loop_state) : bool :=
  bool_decide (is_Some (loop_db ls)).

(** The rejected rows of a table whose first row has index [index]:
    number in the messages and reason, in row order. *)
Fixpoint rejections (set_fault : nat -> option exn) (client : bool)
    (index : nat) (rows : list (gmap string value)) : list (nat * string) :=
  match rows with
  | [] => []
  | data :: rest =>
      match row_error set_fault client index data with
      | Some text => [((index + 2)%nat, text)]
      | None => []
      end ++ rejections set_fault client (S index) rest
  end.

(** The rejected rows of a table whose first row has index [index]:
    zero-based index and reason, in row order. *)
Fixpoint rejected_rows (set_fault : nat -> option exn) (client : bool)
    (index : nat) (rows : list (gmap string value)) : list (nat * string) :=
  match rows with
  | [] => []
  | data :: rest =>
      match row_error set_fault client index data with
      | Some text => [(index, text)]
      | None => []
      end ++ rejected_rows set_fault client (S index) rest
  end.

(** The text is made of decimal digits only. *)
Fixpoint all_digits (s : string) : bool :=
  match s with
  | EmptyString => true
  | String c s' =>
      match digit_of c with
      | Some _ => all_digits s'
      | None => false
      end
  end.

(** The list under [errors] in a body; the key is absent when the list is
    empty. *)
Definition rejection_list (r : response) : list string :=
  match body r !! "errors" with
  | Some (JStrs l) => l
  | _ => []
  end.

(** The upload reaches the loop over [rows]: a file part with an allowed
    name, saved without fault, that the parser accepts. *)
Definition parsed_as (read_csv : string -> result (list (gmap string value)))
    (file : upload) (save_fault : option exn)
    (rows : list (gmap string value)) : Prop :=
  filename file <> EmptyString /\
  allowed_file (filename file) = true /\
  save_fault = None /\
  read_csv (content file) = Return rows.

(** The identifier drawn for the [k]-th accepted row of an import that
    starts when [drawn] identifiers were drawn. *)
Definition nth_id (uuid4_hex : nat -> string) (drawn k : nat) : string :=
  generate_custom_id (uuid4_hex (drawn + k)%nat).

(** ** Sample data *)

Definition row (l : list (string * value)) : gmap string value := list_to_map l.

Definition sample_row (age status : value) : gmap string value :=
  row [ ("name", VStr "Ana"); ("last_name", VStr "Diaz");
        ("email", VStr "ana@example.org"); ("age", age); ("sex", VStr "F");
        ("address", VStr "Calle 1"); ("country", VStr "CO");
        ("degree", VStr "BSc"); ("university", VStr "UN");
        ("status", status) ].

(** A line feed. *)
Definition nl : string := String (ascii_of_nat 10) EmptyString.

(** A file whose only column is [name]. *)
Definition names_csv : string := "name" +:+ nl +:+ "Ana" +:+ nl.

(** A file with the ten columns and three rows, the second with an age
    that is not a number. *)
Definition people_csv : string :=
  "name,last_name,email,age,sex,address,country,degree,university,status" +:+ nl +:+
  "Ana,Diaz,ana@example.org,34,F,Calle 1,CO,BSc,UN,yes" +:+ nl +:+
  "Luis,Mora,luis@example.org,abc,M,Calle 2,CO,MSc,UN,no" +:+ nl +:+
  "Eva,Ruiz,eva@example.org,41,F,Calle 3,CO,PhD,UN,yes" +:+ nl.

Definition people_rows : list (gmap string value) :=
  [ row [ ("name", VStr "Ana"); ("last_name", VStr "Diaz");
          ("email", VStr "ana@example.org"); ("age", VStr "34");
          ("sex", VStr "F"); ("address", VStr "Calle 1");
          ("country", VStr "CO"); ("degree", VStr "BSc");
          ("university", VStr "UN"); ("status", VStr "yes") ];
    row [ ("name", VStr "Luis"); ("last_name", VStr "Mora");
          ("email", VStr "luis@example.org"); ("age", VStr "abc");
          ("sex", VStr "M"); ("address", VStr "Calle 2");
          ("country", VStr "CO"); ("degree", VStr "MSc");
          ("university", VStr "UN"); ("status", VStr "no") ];
    row [ ("name", VStr "Eva"); ("last_name", VStr "Ruiz");
          ("email", VStr "eva@example.org"); ("age", VStr "41");
          ("sex", VStr "F"); ("address", VStr "Calle 3");
          ("country", VStr "CO"); ("degree", VStr "PhD");
          ("university", VStr "UN"); ("status", VStr "yes") ] ].

(** What the parser gives for the sample files: an empty file has no
    header to read; the age column of [people_csv] holds a text that is
    not a number, so its cells stay texts. *)
Definition sample_read_csv (content : string)
    : result (list (gmap string value)) :=
  if String.eqb content EmptyString
  then Raise (Exn LibraryError "No columns to parse from file")
  else if String.eqb content names_csv
  then Return [ row [ ("name", VStr "Ana") ] ]
  else if String.eqb content people_csv
  then Return people_rows
  else Raise (Exn LibraryError "Error tokenizing data").

(** The sample names need no sanitising. *)
Definition keep_name (name : string) : string := name.

(** Thirty-two digits that start with the decimal digits of [k]. *)
Definition sample_uuid4_hex (k : nat) : string :=
  substring 0 32 (pretty k +:+ "a0000000000000000000000000000000").

Definition no_fault (index : nat) : option exn := None.

(** A store without documents, an empty upload folder, no identifier
    drawn. *)
Definition fresh_world : world := World ∅ (Some ∅) 0.

(** A store of [n] documents. *)
Definition sample_docs (n : nat) : gmap string (gmap string value) :=
  list_to_map
    (map (fun k : nat => (pretty k, sample_row (VInt (Z.of_nat k)) (VBool true)))
         (seq 0 n)).

(** A page of a map of documents, for non-negative offset and limit. *)
Definition sample_stream_page (docs : gmap string (gmap string value))
    (offset limit : Z) : result (list (string * gmap string value)) :=
  if (offset <? 0) || (limit <? 0)
  then Raise (Exn LibraryError "invalid argument")
  else Return (take (Z.to_nat limit) (drop (Z.to_nat offset) (map_to_list docs))).

(** An update with top-level fields: they replace or extend those of the
    document. *)
Definition sample_doc_update (fields data : gmap string value)
    : result (gmap string value) :=
  Return (data ∪ fields).

(** A store that raises for the write of the row at index 2 only. *)
Definition third_write_fails (index : nat) : option exn :=
  if (index =? 2)%nat then Some (Exn LibraryError "deadline exceeded") else None.

(** What the parser gives for a file that has a header line and no other
    line: a table without rows. *)
Definition header_only (content : string)
    : result (list (gmap string value)) :=
  Return [].

(** A store that refuses every update. *)
Definition refused_doc_update (fields data : gmap string value)
    : result (gmap string value) :=
  Raise (Exn LibraryError "permission denied").

(** * Properties *)

(** Decide a closed decidable proposition by evaluation. *)
Ltac decide_by_eval := apply (bool_decide_unpack _); vm_compute; exact I.

(** ** Conversions *)

Example int_of_text : py_int (VStr "34") = Return 34.
Proof. reflexivity. Qed.

Example int_of_padded_text : py_int (VStr " -1_000 ") = Return (-1000).
Proof. reflexivity. Qed.

Example int_of_double_underscore :
  int_literal (list_ascii_of_string "1__0") = None.
Proof. reflexivity. Qed.

Example int_of_letters :
  exn_kind <$> (match py_int (VStr "abc") with Raise e => Some e | _ => None end)
  = Some ValueError.
Proof. reflexivity. Qed.

(** -3.5 is truncated to -3. *)
Example int_of_float : py_int (VFloat (S754_finite true 7 (-1))) = Return (-3).
Proof. reflexivity. Qed.

Example bool_of_texts :
  py_bool (VStr "false") = true /\ py_bool (VStr "0") = true /\
  py_bool (VStr EmptyString) = false /\ py_bool (VInt 0) = false.
Proof. by vm_compute. Qed.

(** ** The row validator *)

Lemma first_missing_None fields (data : gmap string value) :
  Forall (fun field => is_Some (data !! field)) fields ->
  first_missing fields data = None.
Proof.
  induction 1 as [|field rest [v Hv] _ IH]; simpl; [done|].
  rewrite bool_decide_eq_false_2; [exact IH | congruence].
Qed.

Lemma first_missing_Some pre field post (data : gmap string value) :
  Forall (fun g => is_Some (data !! g)) pre ->
  data !! field = None ->
  first_missing (pre ++ field :: post) data = Some field.
Proof.
  intros Hpre Hf.
  induction Hpre as [|g pre [v Hv] _ IH]; simpl.
  - by rewrite bool_decide_eq_true_2.
  - rewrite bool_decide_eq_false_2; [exact IH | congruence].
Qed.

Lemma all_present_lookup data field :
  all_present data -> field ∈ required_fields -> is_Some (data !! field).
Proof.
  unfold all_present. rewrite Forall_forall. auto.
Qed.

Lemma required_age : "age" ∈ required_fields.
Proof. unfold required_fields. set_solver. Qed.

Lemma required_status : "status" ∈ required_fields.
Proof. unfold required_fields. set_solver. Qed.

(** A row with its ten fields and a convertible age is accepted, and is
    left with both coerced fields. *)
Lemma validate_accepts data a n s :
  all_present data ->
  data !! "age" = Some a ->
  py_int a = Return n ->
  data !! "status" = Some s ->
  validate_persona_data data =
    (<["status" := VBool (py_bool s)]> (<["age" := VInt n]> data),
     Return (true, msg_valid)).
Proof.
  intros Hall Ha Hn Hs.
  unfold validate_persona_data.
  rewrite (first_missing_None _ _ Hall).
  unfold coerce_types, getitem.
  rewrite Ha, Hn. cbn zeta.
  rewrite lookup_insert_ne by done.
  rewrite Hs.
  by destruct (is_str s).
Qed.

(** A row with its ten fields whose age raises a listed exception is
    rejected and left as it was. *)
Lemma validate_rejects_age data a e :
  all_present data ->
  data !! "age" = Some a ->
  py_int a = Raise e ->
  handles [ValueError; TypeError] e = true ->
  validate_persona_data data = (data, Return (false, msg_types)).
Proof.
  intros Hall Ha He Hh.
  unfold validate_persona_data.
  rewrite (first_missing_None _ _ Hall).
  unfold coerce_types, getitem.
  by rewrite Ha, He, Hh.
Qed.

Lemma first_missing_None_inv fields (data : gmap string value) :
  first_missing fields data = None ->
  Forall (fun field => is_Some (data !! field)) fields.
Proof.
  induction fields as [|field rest IH]; simpl; [constructor|].
  case_bool_decide as Hf; [done|].
  intros Hrest. constructor; [|by apply IH].
  by apply not_eq_None_Some.
Qed.

(** The validator accepts exactly the rows that do not violate the rules:
    all ten fields present and an age that [int] converts. *)
Lemma violates_accepted data :
  violates data = negb (accepted_by_validator data).
Proof.
  unfold violates.
  destruct (decide (all_present data)) as [Hall|Hnot].
  - rewrite (bool_decide_eq_true_2 _ Hall). simpl.
    destruct (all_present_lookup _ _ Hall required_age) as [a Ha].
    destruct (all_present_lookup _ _ Hall required_status) as [s Hs].
    rewrite Ha. unfold accepted_by_validator.
    destruct (py_int a) as [n|e] eqn:Hn.
    + by rewrite (validate_accepts data a n s Hall Ha Hn Hs).
    + unfold validate_persona_data.
      rewrite (first_missing_None _ _ Hall).
      unfold coerce_types, getitem. rewrite Ha, Hn.
      by destruct (handles _ e).
  - rewrite (bool_decide_eq_false_2 _ Hnot). simpl.
    unfold accepted_by_validator, validate_persona_data.
    destruct (first_missing required_fields data) eqn:Hfm; [done|].
    destruct Hnot. by apply first_missing_None_inv.
Qed.

(** C1, as stated, fails: the texts "false" and "0" are coerced to [True]. *)
Lemma status_false_tokens_counterexample :
  exists data : gmap string value,
    all_present data /\
    data !! "status" = Some (VStr "false") /\
    fst (validate_persona_data data) !! "status" = Some (VBool true) /\
    fst (validate_persona_data (<["status" := VStr "0"]> data)) !! "status"
      = Some (VBool true).
Proof.
  exists (sample_row (VStr "34") (VStr "false")).
  split; [decide_by_eval|].
  by vm_compute.
Qed.

(** C1 (amended): for every row whose ten required fields are present and
    whose age converts to an integer, the validator replaces the status by a
    boolean: the empty text gives false, every non-empty text gives true
    (the texts "false" and "0" included), and a boolean is kept as it is. *)
Theorem status_coercion (data : gmap string value) (a v : value) (n : Z) :
  all_present data ->
  data !! "age" = Some a ->
  py_int a = Return n ->
  data !! "status" = Some v ->
  let coerced := fst (validate_persona_data data) !! "status" in
  (v = VStr EmptyString -> coerced = Some (VBool false)) /\
  (forall s, v = VStr s -> s <> EmptyString -> coerced = Some (VBool true)) /\
  (forall b, v = VBool b -> coerced = Some (VBool b)).
Proof.
  intros Hall Ha Hn Hv coerced. subst coerced.
  rewrite (validate_accepts _ _ _ _ Hall Ha Hn Hv). simpl.
  rewrite lookup_insert_eq.
  split; [|split].
  - by intros ->.
  - intros s -> Hs. simpl.
    destruct (String.eqb_spec s EmptyString); [done|done].
  - by intros b ->.
Qed.

Lemma status_coercion_witness :
  let data := sample_row (VStr "34") (VStr "no") in
  let coerced := fst (validate_persona_data data) !! "status" in
  (VStr "no" = VStr EmptyString -> coerced = Some (VBool false)) /\
  (forall s, VStr "no" = VStr s -> s <> EmptyString -> coerced = Some (VBool true)) /\
  (forall b, VStr "no" = VBool b -> coerced = Some (VBool b)).
Proof.
  apply (status_coercion (sample_row (VStr "34") (VStr "no")) (VStr "34")
           (VStr "no") 34).
  - decide_by_eval.
  - reflexivity.
  - reflexivity.
  - reflexivity.
Defined.

(** C5: the validator checks the ten required names in the fixed order
    name, last_name, email, age, sex, address, country, degree, university,
    status, and rejects a row naming the first one that is not a key of it,
    whatever the other values are (so before any type check); with all ten
    present, the age "34" is replaced by the integer 34, and the age "abc"
    is rejected with the message about the types. *)
Theorem validator_field_order_and_age (data : gmap string value) :
  required_fields =
    [ "name"; "last_name"; "email"; "age"; "sex";
      "address"; "country"; "degree"; "university"; "status" ] /\
  (forall (pre : list string) (field : string) (post : list string),
     required_fields = (pre ++ field :: post)%list ->
     Forall (fun g => is_Some (data !! g)) pre ->
     data !! field = None ->
     validate_persona_data data =
       (data, Return (false, "Campo requerido faltante: " +:+ field))) /\
  (all_present data ->
   data !! "age" = Some (VStr "34") ->
   snd (validate_persona_data data) = Return (true, msg_valid) /\
   fst (validate_persona_data data) !! "age" = Some (VInt 34)) /\
  (all_present data ->
   data !! "age" = Some (VStr "abc") ->
   validate_persona_data data = (data, Return (false, msg_types))).
Proof.
  split; [reflexivity|]. split; [|split].
  - intros pre field post Heq Hpre Hf.
    unfold validate_persona_data. rewrite Heq.
    by rewrite (first_missing_Some _ _ _ _ Hpre Hf).
  - intros Hall Ha.
    destruct (all_present_lookup _ _ Hall required_status) as [s Hs].
    rewrite (validate_accepts data (VStr "34") 34 s Hall Ha eq_refl Hs).
    simpl. split; [done|].
    rewrite lookup_insert_ne by done. by rewrite lookup_insert_eq.
  - intros Hall Ha.
    by apply (validate_rejects_age data (VStr "abc") _ Hall Ha eq_refl).
Qed.

(** A row without [age] and without [status], whose other fields are
    there: the message names [age], the earlier of the two. *)
Lemma validator_field_order_and_age_witness :
  let data := delete "age" (delete "status" (sample_row (VStr "abc") VNone)) in
  validate_persona_data data =
    (data, Return (false, "Campo requerido faltante: age")).
Proof.
  intros data.
  apply (proj1 (proj2 (validator_field_order_and_age data))
           [ "name"; "last_name"; "email" ] "age"
           [ "sex"; "address"; "country"; "degree"; "university"; "status" ]).
  - reflexivity.
  - decide_by_eval.
  - reflexivity.
Defined.

(** C10: a row with its ten required fields and an age that [int] accepts
    is valid whatever its status value is: no status value makes the
    conversion to a boolean raise. *)
Theorem valid_whatever_status (data : gmap string value) (a : value) (n : Z) :
  all_present data ->
  data !! "age" = Some a ->
  py_int a = Return n ->
  snd (validate_persona_data data) = Return (true, msg_valid) /\
  (forall v, snd (validate_persona_data (<["status" := v]> data))
             = Return (true, msg_valid)).
Proof.
  intros Hall Ha Hn.
  destruct (all_present_lookup _ _ Hall required_status) as [s Hs].
  split.
  - by rewrite (validate_accepts _ _ _ _ Hall Ha Hn Hs).
  - intros v.
    assert (all_present (<["status" := v]> data)) as Hall'.
    { unfold all_present in *. eapply Forall_impl; [exact Hall|].
      intros g [x Hx]. simpl.
      destruct (decide (g = "status")) as [->|Hne].
      - rewrite lookup_insert_eq. by eexists.
      - rewrite lookup_insert_ne by done. by eexists. }
    assert (<["status" := v]> data !! "age" = Some a) as Ha'.
    { by rewrite lookup_insert_ne. }
    by rewrite (validate_accepts _ _ _ v Hall' Ha' Hn (lookup_insert_eq _ _ _)).
Qed.

Lemma valid_whatever_status_witness :
  let data := sample_row (VStr " +1_9 ") (VStr "abc") in
  snd (validate_persona_data data) = Return (true, msg_valid) /\
  (forall v, snd (validate_persona_data (<["status" := v]> data))
             = Return (true, msg_valid)).
Proof.
  apply (valid_whatever_status (sample_row (VStr " +1_9 ") (VStr "abc"))
           (VStr " +1_9 ") 19).
  - decide_by_eval.
  - reflexivity.
  - reflexivity.
Defined.

(** ** The import loop *)

Section ImportFacts.

Variable secure_filename : string -> string.
Variable read_csv : string -> result (list (gmap string value)).
Variable uuid4_hex : nat -> string.
Variable set_fault : nat -> option exn.

Local Abbreviation import_row := (import_row uuid4_hex set_fault).
Local Abbreviation import_rows := (import_rows uuid4_hex set_fault).
Local Abbreviation row_error := (row_error set_fault).
Local Abbreviation rejections := (rejections set_fault).

(** What one iteration does to each component of the loop state. *)
Lemma import_row_spec index data ls :
  let ls' := import_row index data ls in
  errors ls' =
    (errors ls ++
     match row_error (client_of ls) index data with
     | Some text => [fila (index + 2) text]
     | None => []
     end)%list /\
  inserted_count ls' =
    (inserted_count ls +
     match row_error (client_of ls) index data with
     | Some _ => 0
     | None => 1
     end)%nat /\
  loop_drawn ls' =
    (loop_drawn ls + if accepted_by_validator data then 1 else 0)%nat /\
  client_of ls' = client_of ls.
Proof.
  unfold import_row, row_error, accepted_by_validator, client_of.
  destruct (validate_persona_data data) as [data' [[[] msg]|e]]; simpl.
  - destruct ls as [n errs [docs|] k]; simpl.
    + destruct (set_fault index) as [e|]; simpl.
      * repeat split; try lia. 
      * rewrite app_nil_r. repeat split; lia.
    + repeat split; lia.
  - repeat split; lia.
  - repeat split; lia.
Qed.

Lemma import_rows_app index l1 l2 ls :
  import_rows index (l1 ++ l2) ls =
  import_rows (index + length l1) l2 (import_rows index l1 ls).
Proof.
  revert index ls.
  induction l1 as [|d l1 IH]; intros index ls; simpl.
  - by rewrite Nat.add_0_r.
  - rewrite IH. f_equal. lia.
Qed.

(** The loop as a whole: the messages appended are those of the rejected
    rows, every row is counted once, one identifier is drawn per row that
    the validator accepts, and the client stays what it is. *)
Lemma import_rows_spec index rows ls :
  let ls' := import_rows index rows ls in
  errors ls' =
    (errors ls ++
     map (fun e => fila (fst e) (snd e)) (rejections (client_of ls) index rows))%list /\
  (inserted_count ls' + length (rejections (client_of ls) index rows)
   = inserted_count ls + length rows)%nat /\
  loop_drawn ls' = (loop_drawn ls + count_if accepted_by_validator rows)%nat /\
  client_of ls' = client_of ls.
Proof.
  revert index ls.
  induction rows as [|d rows IH]; intros index ls; simpl.
  - rewrite app_nil_r. repeat split; lia.
  - destruct (IH (S index) (import_row index d ls)) as (He & Hn & Hk & Hc).
    destruct (import_row_spec index d ls) as (He1 & Hn1 & Hk1 & Hc1).
    rewrite Hc1 in He, Hn, Hc.
    rewrite He, He1, Hk, Hk1, Hc.
    rewrite length_app, map_app, <- app_assoc.
    destruct (row_error (client_of ls) index d); simpl in *;
      repeat split; lia.
Qed.

(** The entries of [rejections] are the rejected rows, each with its index
    plus two. *)
Lemma elem_of_rejections client index rows line text :
  (line, text) ∈ rejections client index rows <->
  exists j data, rows !! j = Some data /\
    line = (index + j + 2)%nat /\
    row_error client (index + j) data = Some text.
Proof.
  revert index.
  induction rows as [|d rows IH]; intros index; simpl.
  - split; [by intros ?%elem_of_nil | by intros (j & data & ? & _)].
  - rewrite elem_of_app, IH. split.
    + intros [Hin|(j & data & Hj & -> & Hr)].
      * destruct (row_error client index d) as [t|] eqn:Ht;
          [|by apply elem_of_nil in Hin].
        apply list_elem_of_singleton in Hin. injection Hin as -> ->.
        exists 0%nat, d. rewrite Nat.add_0_r. by repeat split.
      * exists (S j), data. repeat split; [done|lia|].
        by replace (index + S j)%nat with (S index + j)%nat by lia.
    + intros ([|j] & data & Hj & -> & Hr); simpl in Hj.
      * injection Hj as ->. rewrite Nat.add_0_r in Hr. rewrite Hr.
        left. rewrite Nat.add_0_r. by apply list_elem_of_singleton.
      * right. exists j, data. repeat split; [done|lia|].
        by replace (S index + j)%nat with (index + S j)%nat by lia.
Qed.

Lemma rejections_sorted client index rows :
  StronglySorted lt (fst <$> rejections client index rows).
Proof.
  revert index.
  induction rows as [|d rows IH]; intros index; simpl; [constructor|].
  rewrite fmap_app.
  destruct (row_error client index d) as [t|]; simpl; [|apply IH].
  constructor; [apply IH|].
  apply Forall_forall. intros line Hin.
  apply list_elem_of_fmap in Hin as [[line' text] [-> Hin]].
  apply elem_of_rejections in Hin as (j & data & _ & -> & _).
  simpl. lia.
Qed.

(** With a client and no fault of the store, the rejected rows are the rows
    that the validator does not accept. *)
Lemma rejections_no_fault index rows :
  (forall i, set_fault i = None) ->
  length (rejections true index rows) = count_if violates rows.
Proof.
  intros Hok. revert index.
  induction rows as [|d rows IH]; intros index; simpl; [done|].
  rewrite length_app, IH, violates_accepted.
  unfold row_error, accepted_by_validator.
  destruct (snd (validate_persona_data d)) as [[[] msg]|e]; simpl; try done.
  by rewrite Hok.
Qed.

Lemma count_if_violates rows :
  (count_if violates rows + count_if accepted_by_validator rows)%nat
  = length rows.
Proof.
  induction rows as [|d rows IH]; simpl; [done|].
  rewrite violates_accepted. destruct (accepted_by_validator d); simpl; lia.
Qed.

(** *** The response of a completed import *)

Lemma import_response_success n errs total :
  body (import_response n errs total) !! "success" = Some (JBool true).
Proof. by destruct errs. Qed.

Lemma import_response_counts n errs total :
  body (import_response n errs total) !! "inserted_count"
    = Some (JInt (Z.of_nat n)) /\
  body (import_response n errs total) !! "total_records"
    = Some (JInt (Z.of_nat total)).
Proof. by destruct errs. Qed.

Lemma import_response_errors n errs total :
  rejection_list (import_response n errs total) = errs.
Proof. by destruct errs. Qed.

Lemma import_response_status n errs total :
  status (import_response n errs total) = if (0 <? n)%nat then 200 else 400.
Proof. done. Qed.

(** An upload that reaches the loop runs it from the state of the world,
    removes the saved file and answers with the counts. *)
Lemma upload_completes file save_fault w rows :
  parsed_as read_csv file save_fault rows ->
  let path := saved_path secure_filename file in
  let ls := import_rows 0 rows (LoopState 0 [] (db w) (drawn w)) in
  upload_personas_csv secure_filename read_csv uuid4_hex set_fault
    (Some file) save_fault w =
  (World (delete path (<[path := content file]> (files w)))
         (loop_db ls) (loop_drawn ls),
   import_response (inserted_count ls) (errors ls) (length rows)).
Proof.
  intros (Hname & Hallowed & -> & Hparse). simpl.
  unfold upload_personas_csv.
  rewrite (proj2 (String.eqb_neq _ _) Hname), Hallowed. simpl.
  by rewrite Hparse.
Qed.

End ImportFacts.

(** ** The import endpoint *)

(** C2, at a file whose only row is rejected: the import completes with
    nothing stored, answers 400, and the [success] entry of the body is
    true. *)
Theorem all_rejected_import_success_flag :
  let r := snd (upload_personas_csv keep_name sample_read_csv
                  sample_uuid4_hex no_fault
                  (Some (Upload "personas.csv" names_csv)) None fresh_world) in
  body r !! "success" = Some (JBool true) /\
  body r !! "inserted_count" = Some (JInt 0) /\
  body r !! "total_records" = Some (JInt 1) /\
  rejection_list r = [ "Fila 2: Campo requerido faltante: last_name" ] /\
  status r = 400.
Proof. by vm_compute. Qed.

(** Every completed import carries [success] true; only the status code
    depends on the number of stored rows. *)
Lemma completed_import_success_flag secure_filename read_csv uuid4_hex
    set_fault file save_fault w rows :
  parsed_as read_csv file save_fault rows ->
  let r := snd (upload_personas_csv secure_filename read_csv uuid4_hex
                  set_fault (Some file) save_fault w) in
  body r !! "success" = Some (JBool true) /\
  exists accepted,
    body r !! "inserted_count" = Some (JInt (Z.of_nat accepted)) /\
    status r = if (0 <? accepted)%nat then 200 else 400.
Proof.
  intros Hp r. subst r.
  rewrite (upload_completes _ _ _ _ _ _ _ _ Hp). simpl snd.
  split; [apply import_response_success|].
  eexists. split; [apply import_response_counts|apply import_response_status].
Qed.

(** C3: when an upload parses into N rows of which K violate the
    required-field or coercion rules, and the store raises for no write,
    the body reports N rows in total, N - K rows inserted and K rejection
    entries: accepted + rejected = N and rejected = K. *)
Theorem import_counts secure_filename read_csv uuid4_hex set_fault
    file save_fault w rows docs :
  parsed_as read_csv file save_fault rows ->
  db w = Some docs ->
  (forall i, set_fault i = None) ->
  let r := snd (upload_personas_csv secure_filename read_csv uuid4_hex
                  set_fault (Some file) save_fault w) in
  let N := length rows in
  let K := count_if violates rows in
  exists accepted : nat,
    body r !! "inserted_count" = Some (JInt (Z.of_nat accepted)) /\
    body r !! "total_records" = Some (JInt (Z.of_nat N)) /\
    (accepted + length (rejection_list r))%nat = N /\
    length (rejection_list r) = K.
Proof.
  intros Hp Hdb Hok r N K. subst r N K.
  rewrite (upload_completes _ _ _ _ _ _ _ _ Hp). simpl snd.
  set (ls0 := LoopState 0 [] (db w) (drawn w)).
  destruct (import_rows_spec uuid4_hex set_fault 0 rows ls0)
    as (He & Hn & _ & _).
  assert (client_of ls0 = true) as Hc.
  { unfold client_of, ls0. simpl. rewrite Hdb. by apply bool_decide_eq_true_2. }
  rewrite Hc in He, Hn.
  rewrite import_response_errors.
  destruct (import_response_counts
              (inserted_count (import_rows uuid4_hex set_fault 0 rows ls0))
              (errors (import_rows uuid4_hex set_fault 0 rows ls0))
              (length rows)) as [Hi Ht].
  eexists. split; [exact Hi|]. split; [exact Ht|].
  rewrite He. simpl. rewrite length_map.
  rewrite (rejections_no_fault set_fault 0 rows Hok) in *.
  simpl in Hn. split; lia.
Qed.

Lemma import_counts_witness :
  let r := snd (upload_personas_csv keep_name sample_read_csv
                  sample_uuid4_hex no_fault
                  (Some (Upload "personas.csv" people_csv)) None fresh_world) in
  count_if violates people_rows = 1%nat /\
  exists accepted : nat,
    body r !! "inserted_count" = Some (JInt (Z.of_nat accepted)) /\
    body r !! "total_records" = Some (JInt 3) /\
    (accepted + length (rejection_list r))%nat = 3%nat /\
    length (rejection_list r) = 1%nat.
Proof.
  intros r. split; [reflexivity|].
  refine (import_counts keep_name sample_read_csv sample_uuid4_hex no_fault
            (Upload "personas.csv" people_csv) None fresh_world people_rows ∅
            _ _ _).
  - repeat split; by vm_compute.
  - reflexivity.
  - reflexivity.
Defined.

Lemma rejections_rejected_rows set_fault client index rows :
  rejections set_fault client index rows
  = (fun e => ((fst e + 2)%nat, snd e))
      <$> rejected_rows set_fault client index rows.
Proof.
  revert index.
  induction rows as [|d rows IH]; intros index; simpl; [done|].
  rewrite fmap_app, IH.
  by destruct (row_error set_fault client index d).
Qed.

Lemma elem_of_rejected_rows set_fault client index rows i text :
  (i, text) ∈ rejected_rows set_fault client index rows <->
  exists j data, rows !! j = Some data /\
    i = (index + j)%nat /\
    row_error set_fault client (index + j) data = Some text.
Proof.
  revert index.
  induction rows as [|d rows IH]; intros index; simpl.
  - split; [by intros ?%elem_of_nil | by intros (j & data & ? & _)].
  - rewrite elem_of_app, IH. split.
    + intros [Hin|(j & data & Hj & -> & Hr)].
      * destruct (row_error set_fault client index d) as [t|] eqn:Ht;
          [|by apply elem_of_nil in Hin].
        apply list_elem_of_singleton in Hin. injection Hin as -> ->.
        exists 0%nat, d. rewrite Nat.add_0_r. by repeat split.
      * exists (S j), data. repeat split; [done|lia|].
        by replace (index + S j)%nat with (S index + j)%nat by lia.
    + intros ([|j] & data & Hj & -> & Hr); simpl in Hj.
      * injection Hj as ->. rewrite Nat.add_0_r in Hr. rewrite Hr.
        left. rewrite Nat.add_0_r. by apply list_elem_of_singleton.
      * right. exists j, data. repeat split; [done|lia|].
        by replace (S index + j)%nat with (index + S j)%nat by lia.
Qed.

Lemma rejected_rows_sorted set_fault client index rows :
  StronglySorted lt (fst <$> rejected_rows set_fault client index rows).
Proof.
  revert index.
  induction rows as [|d rows IH]; intros index; simpl; [constructor|].
  rewrite fmap_app.
  destruct (row_error set_fault client index d) as [t|]; simpl; [|apply IH].
  constructor; [apply IH|].
  apply Forall_forall. intros i Hin.
  apply list_elem_of_fmap in Hin as [[i' text] [-> Hin]].
  apply elem_of_rejected_rows in Hin as (j & data & _ & -> & _).
  simpl. lia.
Qed.

Lemma StronglySorted_lookup_lt {A} (R : relation A) (l : list A) j1 j2 x y :
  StronglySorted R l -> (j1 < j2)%nat ->
  l !! j1 = Some x -> l !! j2 = Some y -> R x y.
Proof.
  intros Hs. revert j1 j2.
  induction Hs as [|a l Hs IH Hall]; intros j1 j2 Hlt H1 H2; [done|].
  destruct j2 as [|j2]; [lia|]. simpl in H2.
  destruct j1 as [|j1]; simpl in H1.
  - injection H1 as ->. rewrite Forall_forall in Hall. apply Hall.
    by eapply list_elem_of_lookup_2.
  - apply (IH j1 j2); [lia|done..].
Qed.

(** *** The number in a rejection entry can be read back *)

Lemma pretty_N_char_digit x : is_Some (digit_of (pretty_N_char x)).
Proof. unfold pretty_N_char. repeat case_match; by eexists. Qed.

Lemma pretty_N_go_digits x s :
  all_digits s = true -> all_digits (pretty_N_go x s) = true.
Proof.
  revert s. induction (N.lt_wf_0 x) as [x _ IH]; intros s Hs.
  destruct (decide (x = 0)%N) as [->|Hne]; [by rewrite pretty_N_go_0|].
  rewrite pretty_N_go_step by lia.
  apply IH; [apply N.div_lt; lia|].
  simpl. by destruct (pretty_N_char_digit (x `mod` 10)%N) as [d ->].
Qed.

Lemma pretty_nat_digits (n : nat) : all_digits (pretty n) = true.
Proof.
  unfold pretty, pretty_nat, pretty, pretty_N.
  case_decide; [done|]. by apply pretty_N_go_digits.
Qed.

(** Two texts of digits, each followed by a colon, that give the same text
    are the same digits. *)
Lemma digits_colon_inj d1 d2 s1 s2 :
  all_digits d1 = true -> all_digits d2 = true ->
  d1 +:+ String ":" s1 = d2 +:+ String ":" s2 ->
  d1 = d2 /\ s1 = s2.
Proof.
  revert d2. induction d1 as [|c1 d1 IH]; intros [|c2 d2] H1 H2 Heq.
  - change (String ":" s1 = String ":" s2) in Heq. by injection Heq as ->.
  - change (String ":" s1 = String c2 (d2 +:+ String ":" s2)) in Heq.
    injection Heq as <- _. by simpl in H2.
  - change (String c1 (d1 +:+ String ":" s1) = String ":" s2) in Heq.
    injection Heq as -> _. by simpl in H1.
  - change (String c1 (d1 +:+ String ":" s1)
            = String c2 (d2 +:+ String ":" s2)) in Heq.
    injection Heq as -> Heq. simpl in H1, H2.
    destruct (digit_of c2); [|done].
    destruct (IH d2 H1 H2 Heq) as [-> ->]. done.
Qed.

Lemma rejection_entry_inj (i1 i2 : nat) (t1 t2 : string) :
  "Fila " +:+ pretty (i1 + 2)%nat +:+ ": " +:+ t1
  = "Fila " +:+ pretty (i2 + 2)%nat +:+ ": " +:+ t2 ->
  i1 = i2 /\ t1 = t2.
Proof.
  intros Heq. apply (inj (String.app "Fila ")) in Heq.
  change (pretty (i1 + 2)%nat +:+ String ":" (String " " t1)
          = pretty (i2 + 2)%nat +:+ String ":" (String " " t2)) in Heq.
  apply digits_colon_inj in Heq as [Hn Ht];
    [|apply pretty_nat_digits..].
  apply (inj pretty) in Hn. injection Ht as ->. split; [lia|done].
Qed.

(** C4: the rejection entries of an import are those of the rejected rows
    in row order: the entry of the row at zero-based index i is the text
    "Fila ", the decimal digits of i + 2 (data row i + 1, the header being
    line 1), ": " and the reason; the list follows the order of the rows,
    so that of two entries the earlier one carries the smaller number. *)
Theorem rejection_entries_in_line_order secure_filename read_csv uuid4_hex
    set_fault file save_fault w rows :
  parsed_as read_csv file save_fault rows ->
  let r := snd (upload_personas_csv secure_filename read_csv uuid4_hex
                  set_fault (Some file) save_fault w) in
  let client := bool_decide (is_Some (db w)) in
  (exists entries : list (nat * string),
     rejection_list r =
       map (fun e => "Fila " +:+ pretty (fst e + 2)%nat +:+ ": " +:+ snd e)
           entries /\
     StronglySorted lt (fst <$> entries) /\
     (forall i text,
        (i, text) ∈ entries <->
        exists data, rows !! i = Some data /\
          row_error set_fault client i data = Some text)) /\
  (forall j1 j2 i1 i2 t1 t2,
     (j1 < j2)%nat ->
     rejection_list r !! j1
       = Some ("Fila " +:+ pretty (i1 + 2)%nat +:+ ": " +:+ t1) ->
     rejection_list r !! j2
       = Some ("Fila " +:+ pretty (i2 + 2)%nat +:+ ": " +:+ t2) ->
     (i1 < i2)%nat).
Proof.
  intros Hp r client. subst r.
  rewrite (upload_completes _ _ _ _ _ _ _ _ Hp). simpl snd.
  rewrite import_response_errors.
  set (ls0 := LoopState 0 [] (db w) (drawn w)).
  destruct (import_rows_spec uuid4_hex set_fault 0 rows ls0) as (He & _).
  change (client_of ls0) with client in He. simpl in He.
  rewrite rejections_rejected_rows in He.
  change (@map) with (@fmap list _) in He.
  rewrite <- list_fmap_compose in He.
  set (entries := rejected_rows set_fault client 0 rows) in *.
  assert (errors (import_rows uuid4_hex set_fault 0 rows ls0) =
          map (fun e => "Fila " +:+ pretty (fst e + 2)%nat +:+ ": " +:+ snd e)
              entries) as Hlist by exact He.
  clear He. split.
  - exists entries. split; [exact Hlist|].
    split; [apply rejected_rows_sorted|].
    intros i text. unfold entries. rewrite elem_of_rejected_rows. split.
    + intros (j & data & Hj & -> & Hr). by exists data.
    + intros (data & Hi & Hr). by exists i, data.
  - intros j1 j2 i1 i2 t1 t2 Hlt H1 H2.
    rewrite Hlist in H1, H2.
    change (@map) with (@fmap list _) in H1, H2.
    rewrite list_lookup_fmap in H1, H2.
    destruct (entries !! j1) as [[i1' t1']|] eqn:He1; [|done].
    destruct (entries !! j2) as [[i2' t2']|] eqn:He2; [|done].
    simpl in H1, H2. apply (inj Some) in H1. apply (inj Some) in H2.
    apply rejection_entry_inj in H1 as [-> ->].
    apply rejection_entry_inj in H2 as [-> ->].
    apply (StronglySorted_lookup_lt lt (fst <$> entries) j1 j2);
      [apply rejected_rows_sorted|done|..];
      rewrite list_lookup_fmap; [by rewrite He1|by rewrite He2].
Qed.

Lemma rejection_entries_in_line_order_witness :
  let r := snd (upload_personas_csv keep_name sample_read_csv
                  sample_uuid4_hex no_fault
                  (Some (Upload "personas.csv" people_csv)) None fresh_world) in
  rejection_list r
    = [ "Fila 3: Los campos 'age' y 'status' deben ser numéricos/booleanos" ] /\
  (exists entries : list (nat * string),
     rejection_list r =
       map (fun e => "Fila " +:+ pretty (fst e + 2)%nat +:+ ": " +:+ snd e)
           entries /\
     StronglySorted lt (fst <$> entries) /\
     (forall i text,
        (i, text) ∈ entries <->
        exists data, people_rows !! i = Some data /\
          row_error no_fault true i data = Some text)) /\
  (forall j1 j2 i1 i2 t1 t2,
     (j1 < j2)%nat ->
     rejection_list r !! j1
       = Some ("Fila " +:+ pretty (i1 + 2)%nat +:+ ": " +:+ t1) ->
     rejection_list r !! j2
       = Some ("Fila " +:+ pretty (i2 + 2)%nat +:+ ": " +:+ t2) ->
     (i1 < i2)%nat).
Proof.
  intros r. split; [reflexivity|].
  apply (rejection_entries_in_line_order keep_name sample_read_csv
           sample_uuid4_hex no_fault (Upload "personas.csv" people_csv)
           None fresh_world people_rows).
  repeat split; by vm_compute.
Defined.

Example people_csv_rejections :
  rejection_list
    (snd (upload_personas_csv keep_name sample_read_csv sample_uuid4_hex
            no_fault (Some (Upload "personas.csv" people_csv)) None
            fresh_world))
  = [ fila 3 msg_types ].
Proof. by vm_compute. Qed.

(** *** The saved file *)

(** An import that reaches the end of the loop removes the saved file,
    whatever the rows and the faults of the store were. *)
Lemma completed_import_removes_file secure_filename read_csv uuid4_hex
    set_fault file save_fault w rows :
  parsed_as read_csv file save_fault rows ->
  files (fst (upload_personas_csv secure_filename read_csv uuid4_hex
                set_fault (Some file) save_fault w))
    !! saved_path secure_filename file = None.
Proof.
  intros Hp.
  rewrite (upload_completes _ _ _ _ _ _ _ _ Hp). simpl.
  apply lookup_delete_eq.
Qed.

(** C6, on the exit for a parse failure: the upload was saved, the parser
    raises, the operation answers 400 and the saved file is still in the
    upload folder when it returns. *)
Theorem parse_failure_keeps_file secure_filename read_csv uuid4_hex
    set_fault file w e :
  filename file <> EmptyString ->
  allowed_file (filename file) = true ->
  read_csv (content file) = Raise e ->
  let out := upload_personas_csv secure_filename read_csv uuid4_hex
               set_fault (Some file) None w in
  files (fst out) !! saved_path secure_filename file = Some (content file) /\
  status (snd out) = 400 /\
  body (snd out) !! "success" = Some (JBool false).
Proof.
  intros Hname Hallowed Hparse out. subst out.
  unfold upload_personas_csv.
  rewrite (proj2 (String.eqb_neq _ _) Hname), Hallowed. simpl negb. cbv iota.
  rewrite Hparse. simpl.
  split; [apply lookup_insert_eq|done].
Qed.

Lemma parse_failure_keeps_file_witness :
  let out := upload_personas_csv keep_name sample_read_csv sample_uuid4_hex
               no_fault (Some (Upload "personas.csv" EmptyString)) None
               fresh_world in
  files (fst out) !! "uploads/personas.csv" = Some EmptyString /\
  status (snd out) = 400 /\
  body (snd out) !! "success" = Some (JBool false).
Proof.
  apply (parse_failure_keeps_file keep_name sample_read_csv sample_uuid4_hex
           no_fault (Upload "personas.csv" EmptyString) fresh_world
           (Exn LibraryError "No columns to parse from file")).
  - by vm_compute.
  - reflexivity.
  - reflexivity.
Defined.

(** *** Stored documents *)

Section StoreFacts.

Variable uuid4_hex : nat -> string.
Variable set_fault : nat -> option exn.

Local Abbreviation import_row := (import_row uuid4_hex set_fault).
Local Abbreviation import_rows := (import_rows uuid4_hex set_fault).

(** What an accepted row looks like after the validator. *)
Lemma validate_accepted_inv data data' msg :
  validate_persona_data data = (data', Return (true, msg)) ->
  exists a n s,
    data !! "age" = Some a /\ py_int a = Return n /\
    data !! "status" = Some s /\
    data' = <["status" := VBool (py_bool s)]> (<["age" := VInt n]> data).
Proof.
  unfold validate_persona_data.
  destruct (first_missing required_fields data); [intros [=]|].
  unfold coerce_types, getitem.
  destruct (data !! "age") as [a|] eqn:Ha; [|intros [=]].
  destruct (py_int a) as [n|e] eqn:Hn.
  - cbn zeta. rewrite lookup_insert_ne by done.
    destruct (data !! "status") as [s|] eqn:Hs; [|intros [=]].
    intros [= <- _]. exists a, n, s. repeat split; try done.
    by destruct (is_str s).
  - destruct (handles _ e); intros [=].
Qed.

(** The store after one iteration: unchanged, or with the row under the
    identifier drawn for it. *)
Lemma import_row_db index data ls docs :
  loop_db ls = Some docs ->
  loop_db (import_row index data ls) = Some docs \/
  (accepted_by_validator data = true /\
   loop_db (import_row index data ls) =
     Some (<[nth_id uuid4_hex (loop_drawn ls) 0 :=
               fst (validate_persona_data data)]> docs)).
Proof.
  intros Hdb. unfold import_row, accepted_by_validator, nth_id.
  rewrite Nat.add_0_r.
  destruct (validate_persona_data data) as [data' [[[] msg]|e]]; simpl;
    rewrite ?Hdb; simpl; auto.
  destruct (set_fault index); simpl; auto.
Qed.

(** A document stays in the store as long as its identifier is not drawn
    again. *)
Lemma import_rows_keeps index rows ls docs id x :
  loop_db ls = Some docs ->
  docs !! id = Some x ->
  (forall k, (k < count_if accepted_by_validator rows)%nat ->
             nth_id uuid4_hex (loop_drawn ls) k <> id) ->
  exists docs', loop_db (import_rows index rows ls) = Some docs' /\
                docs' !! id = Some x.
Proof.
  revert index ls docs.
  induction rows as [|d rows IH]; intros index ls docs Hdb Hx Hfresh; simpl.
  - eauto.
  - destruct (import_row_spec uuid4_hex set_fault index d ls)
      as (_ & _ & Hk & _).
    simpl in Hfresh.
    assert (forall k, (k < count_if accepted_by_validator rows)%nat ->
              nth_id uuid4_hex (loop_drawn (import_row index d ls)) k <> id)
      as Hfresh'.
    { intros k Hlt. rewrite Hk. unfold nth_id.
      destruct (accepted_by_validator d).
      - replace (loop_drawn ls + 1 + k)%nat with (loop_drawn ls + S k)%nat by lia.
        apply Hfresh. lia.
      - rewrite Nat.add_0_r. apply Hfresh. lia. }
    destruct (import_row_db index d ls docs Hdb) as [Hsame|[Hacc Hins]].
    + by apply (IH _ _ docs).
    + eapply IH; [exact Hins| |exact Hfresh'].
      rewrite lookup_insert_ne; [done|].
      apply Hfresh. rewrite Hacc. lia.
Qed.

End StoreFacts.

Lemma count_if_app {A} (p : A -> bool) (l1 l2 : list A) :
  count_if p (l1 ++ l2) = (count_if p l1 + count_if p l2)%nat.
Proof. induction l1 as [|x l1 IH]; simpl; [done|]. rewrite IH. lia. Qed.

Lemma NoDup_fmap_seq_inj {A} (f : nat -> A) (n a b : nat) :
  NoDup (f <$> seq 0 n) -> (a < n)%nat -> (b < n)%nat -> f a = f b -> a = b.
Proof.
  intros Hnd Ha Hb Heq.
  apply (proj1 (NoDup_alt _) Hnd a b (f a)).
  - rewrite list_lookup_fmap, lookup_seq_lt by done. done.
  - rewrite list_lookup_fmap, lookup_seq_lt by done. simpl. by rewrite Heq.
Qed.

Lemma id_not_required : "id" ∉ required_fields.
Proof. decide_by_eval. Qed.

(** C8: a row that an import accepts is stored under the identifier drawn
    for it, and fetching that identifier after the import returns the row
    as the validator left it (age as an integer, status as a boolean, every
    other field as submitted), with the identifier added under [id].  The
    identifiers drawn during the import are assumed distinct, and neither
    the write of the row nor the read of the fetch to fail. *)
Theorem stored_row_round_trip secure_filename read_csv uuid4_hex set_fault
    file save_fault w rows docs i data data' msg :
  parsed_as read_csv file save_fault rows ->
  db w = Some docs ->
  rows !! i = Some data ->
  validate_persona_data data = (data', Return (true, msg)) ->
  set_fault i = None ->
  NoDup (nth_id uuid4_hex (drawn w)
           <$> seq 0 (count_if accepted_by_validator rows)) ->
  let id := nth_id uuid4_hex (drawn w)
              (count_if accepted_by_validator (take i rows)) in
  let w' := fst (upload_personas_csv secure_filename read_csv uuid4_hex
                   set_fault (Some file) save_fault w) in
  get_person None id (db w') =
    (<["success" := JBool true]>
     (<["data" := JDoc (<["id" := VStr id]> data')]> ∅), 200) /\
  (forall field, field ∈ required_fields ->
     (<["id" := VStr id]> data') !! field = data' !! field) /\
  (exists a n s,
     data !! "age" = Some a /\ py_int a = Return n /\
     data !! "status" = Some s /\
     data' !! "age" = Some (VInt n) /\
     data' !! "status" = Some (VBool (py_bool s))) /\
  (forall field, field <> "age" -> field <> "status" ->
     data' !! field = data !! field).
Proof.
  intros Hp Hdb Hi Hval Hok Hnd id w'.
  split; [|split; [|split]].
  - subst w'. rewrite (upload_completes _ _ _ _ _ _ _ _ Hp). simpl fst.
    simpl db.
    set (ls0 := LoopState 0 [] (db w) (drawn w)).
    rewrite <- (take_drop_middle rows i data Hi).
    rewrite import_rows_app.
    assert (length (take i rows) = i) as ->.
    { rewrite length_take. apply lookup_lt_Some in Hi. lia. }
    set (pre := take i rows) in *. set (post := drop (S i) rows).
    destruct (import_rows_spec uuid4_hex set_fault 0 pre ls0)
      as (_ & _ & Hk & Hc).
    set (ls1 := import_rows uuid4_hex set_fault 0 pre ls0) in *.
    assert (exists docs1, loop_db ls1 = Some docs1) as [docs1 Hdb1].
    { unfold client_of in Hc. simpl in Hc. rewrite Hdb in Hc.
      rewrite (bool_decide_eq_true_2 (is_Some (Some docs))) in Hc by eauto.
      apply bool_decide_eq_true_1 in Hc. exact Hc. }
    simpl in Hk.
    assert (accepted_by_validator data = true) as Hacc.
    { unfold accepted_by_validator. by rewrite Hval. }
    assert (count_if accepted_by_validator rows
            = (count_if accepted_by_validator pre + 1
               + count_if accepted_by_validator post)%nat) as Hcount.
    { rewrite <- (take_drop_middle rows i data Hi) at 1.
      rewrite count_if_app. simpl. rewrite Hacc. fold pre post. lia. }
    simpl import_rows at 1.
    assert (import_row uuid4_hex set_fault i data ls1 =
            LoopState (S (inserted_count ls1)) (errors ls1)
              (Some (<[id := data']> docs1)) (S (loop_drawn ls1))) as ->.
    { unfold import_row. rewrite Hval. simpl. rewrite Hok, Hdb1. simpl.
      subst id. unfold nth_id. by rewrite Hk. }
    edestruct (import_rows_keeps uuid4_hex set_fault (S i) post
                 (LoopState (S (inserted_count ls1)) (errors ls1)
                    (Some (<[id := data']> docs1)) (S (loop_drawn ls1)))
                 (<[id := data']> docs1) id data')
      as (docs' & Hdb' & Hx).
    + done.
    + apply lookup_insert_eq.
    + simpl. intros k Hlt Heq. rewrite Hk in Heq.
      replace (nth_id uuid4_hex (S (drawn w + count_if accepted_by_validator pre)) k)
        with (nth_id uuid4_hex (drawn w)
                (count_if accepted_by_validator pre + 1 + k))
        in Heq by (unfold nth_id; f_equal; f_equal; lia).
      subst id.
      apply (NoDup_fmap_seq_inj _ _ _ _ Hnd) in Heq; lia.
    + rewrite Hdb'. unfold get_person. by rewrite Hx.
  - intros field Hf. apply lookup_insert_ne.
    intros <-. by apply id_not_required.
  - destruct (validate_accepted_inv _ _ _ Hval) as (a & n & s & Ha & Hn & Hs & ->).
    exists a, n, s. repeat split; try done.
    + rewrite lookup_insert_ne by done. apply lookup_insert_eq.
    + apply lookup_insert_eq.
  - intros field Hage Hstatus.
    destruct (validate_accepted_inv _ _ _ Hval) as (a & n & s & _ & _ & _ & ->).
    by rewrite !lookup_insert_ne.
Qed.

(** The third row of [people_csv]: the second identifier drawn. *)
Lemma stored_row_round_trip_witness :
  let data := row [ ("name", VStr "Eva"); ("last_name", VStr "Ruiz");
                    ("email", VStr "eva@example.org"); ("age", VStr "41");
                    ("sex", VStr "F"); ("address", VStr "Calle 3");
                    ("country", VStr "CO"); ("degree", VStr "PhD");
                    ("university", VStr "UN"); ("status", VStr "yes") ] in
  let data' := <["status" := VBool true]> (<["age" := VInt 41]> data) in
  let id := nth_id sample_uuid4_hex 0
              (count_if accepted_by_validator (take 2 people_rows)) in
  let w' := fst (upload_personas_csv keep_name sample_read_csv
                   sample_uuid4_hex no_fault
                   (Some (Upload "personas.csv" people_csv)) None
                   fresh_world) in
  get_person None id (db w') =
    (<["success" := JBool true]>
     (<["data" := JDoc (<["id" := VStr id]> data')]> ∅), 200) /\
  (forall field, field ∈ required_fields ->
     (<["id" := VStr id]> data') !! field = data' !! field) /\
  (exists a n s,
     data !! "age" = Some a /\ py_int a = Return n /\
     data !! "status" = Some s /\
     data' !! "age" = Some (VInt n) /\
     data' !! "status" = Some (VBool (py_bool s))) /\
  (forall field, field <> "age" -> field <> "status" ->
     data' !! field = data !! field).
Proof.
  intros data data'.
  apply (stored_row_round_trip keep_name sample_read_csv sample_uuid4_hex
           no_fault (Upload "personas.csv" people_csv) None fresh_world
           people_rows ∅ 2 data data' msg_valid).
  - repeat split; by vm_compute.
  - reflexivity.
  - reflexivity.
  - by vm_compute.
  - reflexivity.
  - decide_by_eval.
Defined.

(** ** The list endpoint *)

Lemma clamp_limit_min limit : clamp_limit limit = Z.min limit 10.
Proof. unfold clamp_limit. destruct (Z.ltb_spec 10 limit); lia. Qed.





(** C9: the limit is clamped from above only, so a requested limit of 0
    stays 0; the request is then answered 500 with [success] false and no
    listing, and when the store delivers the (empty) page the exception is
    the division by zero in the pages count. *)
Theorem zero_limit_server_fault stream_page page_arg db :
  let r := get_persons stream_page (Some "0") page_arg db in
  clamp_limit (args_get_int (Some "0") 10) = 0 /\
  status r = 500 /\
  body r !! "success" = Some (JBool false) /\
  body r !! "pagination" = None /\
  body r !! "data" = None /\
  (forall docs page_docs,
     db = Some docs ->
     stream_page docs 0 0 = Return page_docs ->
     exists e, exn_kind e = ZeroDivisionError /\
       page_count (Z.of_nat (size docs)) 0 = Raise e /\
       r = failure ("Error getting persons: " +:+ str_exn e) 500).
Proof.
  intros r. subst r. split; [reflexivity|].
  unfold get_persons.
  change (clamp_limit (args_get_int (Some "0") 10)) with 0.
  rewrite Z.mul_0_r.
  destruct db as [docs|].
  - destruct (stream_page docs 0 0) as [page_docs|e] eqn:Hpage.
    + repeat split; try done.
      intros docs' page_docs' [= <-] _.
      eexists. split; [|split]; cycle 1; reflexivity.
    + repeat split; try done.
      intros docs' page_docs' [= <-] Hpage'. congruence.
  - repeat split; try done.
Qed.

Lemma zero_limit_server_fault_witness :
  exists e, exn_kind e = ZeroDivisionError /\
    page_count 25 0 = Raise e /\
    get_persons sample_stream_page (Some "0") (Some "3") (Some (sample_docs 25))
    = failure ("Error getting persons: " +:+ str_exn e) 500.
Proof.
  apply (proj2 (proj2 (proj2 (proj2 (proj2
           (zero_limit_server_fault sample_stream_page (Some "3")
              (Some (sample_docs 25)))))))
           (sample_docs 25) []).
  - reflexivity.
  - reflexivity.
Defined.

(** * Further properties *)

(** ** The row validator, all outcomes *)

(** The three ways a call of the validator ends. *)
Lemma validate_cases data :
  (exists field, data !! field = None /\
     validate_persona_data data = (data, Return (false, msg_missing field))) \/
  (all_present data /\ exists a s,
     data !! "age" = Some a /\ data !! "status" = Some s /\
     ((exists n, py_int a = Return n /\
         validate_persona_data data =
           (<["status" := VBool (py_bool s)]> (<["age" := VInt n]> data),
            Return (true, msg_valid))) \/
      (exists e, py_int a = Raise e /\
         validate_persona_data data =
           (data, if handles [ValueError; TypeError] e
                  then Return (false, msg_types) else Raise e)))).
Proof.
  destruct (first_missing required_fields data) as [field|] eqn:Hfm.
  - left. exists field. split.
    + clear -Hfm. induction required_fields as [|g rest IH]; [done|].
      simpl in Hfm. case_bool_decide; [by injection Hfm as <-|by apply IH].
    + unfold validate_persona_data. by rewrite Hfm.
  - right. pose proof (first_missing_None_inv _ _ Hfm) as Hall.
    split; [exact Hall|].
    destruct (all_present_lookup _ _ Hall required_age) as [a Ha].
    destruct (all_present_lookup _ _ Hall required_status) as [s Hs].
    exists a, s. split; [done|]. split; [done|].
    destruct (py_int a) as [n|e] eqn:Hn.
    + left. exists n. split; [done|]. by apply (validate_accepts data a n s).
    + right. exists e. split; [done|].
      unfold validate_persona_data. rewrite Hfm.
      unfold coerce_types, getitem. rewrite Ha, Hn.
      by destruct (handles _ e).
Qed.

(** X1: validating a row that went through the validator changes nothing
    more and gives the same verdict. *)
Theorem validate_idempotent data :
  validate_persona_data (fst (validate_persona_data data))
  = validate_persona_data data.
Proof.
  destruct (validate_cases data)
    as [(field & _ & Hv)|(Hall & a & s & Ha & Hs & [(n & Hn & Hv)|(e & He & Hv)])].
  - by rewrite Hv.
  - rewrite Hv. simpl fst.
    set (data' := <["status" := VBool (py_bool s)]> (<["age" := VInt n]> data)).
    assert (data' !! "age" = Some (VInt n)) as Ha'.
    { unfold data'. rewrite lookup_insert_ne by done. apply lookup_insert_eq. }
    assert (data' !! "status" = Some (VBool (py_bool s))) as Hs'.
    { apply lookup_insert_eq. }
    assert (all_present data') as Hall'.
    { unfold all_present in *. eapply Forall_impl; [exact Hall|].
      intros g [x Hx]. simpl. unfold data'.
      destruct (decide (g = "status")) as [->|Hne1]; [by rewrite lookup_insert_eq|].
      rewrite lookup_insert_ne by done.
      destruct (decide (g = "age")) as [->|Hne2]; [by rewrite lookup_insert_eq|].
      rewrite lookup_insert_ne by done. by eexists. }
    rewrite (validate_accepts data' (VInt n) n (VBool (py_bool s)) Hall' Ha' eq_refl Hs').
    simpl py_bool. by rewrite (insert_id data' "age"), (insert_id data' "status").
  - rewrite Hv. simpl fst. exact Hv.
Qed.

(** X2: the validator keeps the keys of the row and every value except
    those of [age] and [status]; a row that it does not accept is left
    exactly as it was. *)
Theorem validate_frame data :
  let data' := fst (validate_persona_data data) in
  dom data' = dom data /\
  (forall key, key <> "age" -> key <> "status" -> data' !! key = data !! key) /\
  (accepted_by_validator data = false -> data' = data).
Proof.
  unfold accepted_by_validator.
  destruct (validate_cases data)
    as [(field & _ & Hv)|(Hall & a & s & Ha & Hs & [(n & Hn & Hv)|(e & He & Hv)])];
    rewrite Hv; simpl.
  - done.
  - split; [|split; [|done]].
    + rewrite !dom_insert_lookup_L; [done|by eexists|].
      rewrite lookup_insert_ne by done. by eexists.
    + intros key H1 H2. by rewrite !lookup_insert_ne.
  - done.
Qed.

(** X3: a row with its ten fields whose age is a float.  Not-a-number (an
    empty cell) is rejected with the message about the types.  An infinite
    age makes [int] raise an [OverflowError] that the validator does not
    handle: the loop reports it against the row, stores nothing for it and
    draws no identifier. *)
Theorem float_age_rows uuid4_hex set_fault index data f ls :
  all_present data ->
  data !! "age" = Some (VFloat f) ->
  (f = S754_nan ->
     validate_persona_data data = (data, Return (false, msg_types)) /\
     import_row uuid4_hex set_fault index data ls =
       add_error ls (fila (index + 2) msg_types)) /\
  (forall sign, f = S754_infinity sign ->
     exn_kind <$> (match snd (validate_persona_data data) with
                   | Raise e => Some e
                   | Return _ => None
                   end) = Some OverflowError /\
     import_row uuid4_hex set_fault index data ls =
       add_error ls (fila (index + 2) "cannot convert float infinity to integer")).
Proof.
  intros Hall Ha. split.
  - intros ->.
    pose proof (validate_rejects_age data _ _ Hall Ha eq_refl eq_refl) as Hv.
    split; [exact Hv|]. unfold import_row. by rewrite Hv.
  - intros sign ->.
    assert (validate_persona_data data =
            (data, Raise (Exn OverflowError "cannot convert float infinity to integer")))
      as Hv.
    { unfold validate_persona_data.
      rewrite (first_missing_None _ _ Hall).
      unfold coerce_types, getitem. by rewrite Ha. }
    unfold import_row. by rewrite Hv.
Qed.

Lemma float_age_rows_witness :
  let data := sample_row (VFloat (S754_infinity false)) (VBool true) in
  let ls := LoopState 1 [] (Some ∅) 1 in
  (S754_infinity false = S754_nan ->
     validate_persona_data data = (data, Return (false, msg_types)) /\
     import_row sample_uuid4_hex no_fault 5 data ls =
       add_error ls (fila (5 + 2) msg_types)) /\
  (forall sign, S754_infinity false = S754_infinity sign ->
     exn_kind <$> (match snd (validate_persona_data data) with
                   | Raise e => Some e
                   | Return _ => None
                   end) = Some OverflowError /\
     import_row sample_uuid4_hex no_fault 5 data ls =
       add_error ls (fila (5 + 2) "cannot convert float infinity to integer")).
Proof.
  intros data ls.
  apply (float_age_rows sample_uuid4_hex no_fault 5 data
           (S754_infinity false) ls).
  - decide_by_eval.
  - reflexivity.
Defined.

(** X4: the status of an accepted row when it is not a text: an integer is
    true unless it is 0, a float is true unless it is a zero (so
    not-a-number, an empty cell, is true), and [None] is false. *)
Theorem status_coercion_non_text (data : gmap string value) (a v : value) (n : Z) :
  all_present data ->
  data !! "age" = Some a ->
  py_int a = Return n ->
  data !! "status" = Some v ->
  let coerced := fst (validate_persona_data data) !! "status" in
  (forall z, v = VInt z -> coerced = Some (VBool (bool_decide (z <> 0)))) /\
  (forall f, v = VFloat f ->
     coerced = Some (VBool (match f with S754_zero _ => false | _ => true end))) /\
  (v = VFloat S754_nan -> coerced = Some (VBool true)) /\
  (v = VNone -> coerced = Some (VBool false)).
Proof.
  intros Hall Ha Hn Hv coerced. subst coerced.
  rewrite (validate_accepts _ _ _ _ Hall Ha Hn Hv). simpl.
  rewrite lookup_insert_eq.
  repeat split.
  - intros z ->. simpl. do 2 f_equal.
    destruct (Z.eqb_spec z 0); simpl;
      [by rewrite bool_decide_eq_false_2 by lia
      |by rewrite bool_decide_eq_true_2].
  - intros f ->. by destruct f.
  - by intros ->.
  - by intros ->.
Qed.

Lemma status_coercion_non_text_witness :
  let data := sample_row (VInt 30) (VInt 0) in
  let coerced := fst (validate_persona_data data) !! "status" in
  (forall z, VInt 0 = VInt z -> coerced = Some (VBool (bool_decide (z <> 0)))) /\
  (forall f, VInt 0 = VFloat f ->
     coerced = Some (VBool (match f with S754_zero _ => false | _ => true end))) /\
  (VInt 0 = VFloat S754_nan -> coerced = Some (VBool true)) /\
  (VInt 0 = VNone -> coerced = Some (VBool false)).
Proof.
  apply (status_coercion_non_text (sample_row (VInt 30) (VInt 0))
           (VInt 30) (VInt 0) 30).
  - decide_by_eval.
  - reflexivity.
  - reflexivity.
  - reflexivity.
Defined.

(** ** File names and identifiers *)

Lemma after_last_dot_app stem ext :
  after_last_dot ext = None ->
  after_last_dot (stem +:+ "." +:+ ext) = Some ext.
Proof.
  intros Hext. induction stem as [|c stem IH].
  - change (after_last_dot (String "." ext) = Some ext).
    simpl. by rewrite Hext.
  - change (after_last_dot (String c (stem +:+ "." +:+ ext)) = Some ext).
    simpl. by rewrite IH.
Qed.

(** X5: a name is allowed exactly by what follows its last dot, compared
    to csv without regard to case; a name without a dot is refused. *)
Theorem allowed_file_by_extension stem ext :
  after_last_dot ext = None ->
  allowed_file (stem +:+ "." +:+ ext) = bool_decide (lower ext = "csv") /\
  allowed_file ext = false.
Proof.
  intros Hext. unfold allowed_file.
  rewrite (after_last_dot_app stem ext Hext), Hext.
  split; [|done].
  apply bool_decide_ext. unfold ALLOWED_EXTENSIONS.
  apply list_elem_of_singleton.
Qed.

Lemma allowed_file_by_extension_witness :
  allowed_file ("informe.2024" +:+ "." +:+ "CsV")
    = bool_decide (lower "CsV" = "csv") /\
  allowed_file "CsV" = false.
Proof.
  apply (allowed_file_by_extension "informe.2024" "CsV"). reflexivity.
Defined.

Lemma substring_prefix (a b : string) :
  substring 0 (String.length a) (a +:+ b) = a.
Proof.
  induction a as [|c a IH].
  - change (substring 0 0 b = EmptyString). by destruct b.
  - change (String c (substring 0 (String.length a) (a +:+ b)) = String c a).
    by rewrite IH.
Qed.

Lemma substring_length (n : nat) (s : string) :
  String.length (substring 0 n s) = (n `min` String.length s)%nat.
Proof.
  revert s. induction n as [|n IH]; intros [|c s]; simpl; try done.
  by rewrite IH.
Qed.

(** X6: the identifier is the first twenty digits drawn: what follows them
    has no effect on it, and it has twenty characters as soon as twenty
    were drawn. *)
Theorem generate_custom_id_prefix (a b : string) :
  String.length a = 20%nat ->
  generate_custom_id (a +:+ b) = a /\
  String.length (generate_custom_id (a +:+ b)) = 20%nat /\
  (forall c, generate_custom_id (a +:+ b) = generate_custom_id (a +:+ c)).
Proof.
  intros Hlen. unfold generate_custom_id.
  assert (forall c, substring 0 20 (a +:+ c) = a) as Hp.
  { intros c. rewrite <- Hlen. apply substring_prefix. }
  split; [apply Hp|]. split; [by rewrite Hp|].
  intros c. by rewrite !Hp.
Qed.

Lemma generate_custom_id_prefix_witness :
  generate_custom_id ("0123456789abcdef0123" +:+ "456789abcdef")
    = "0123456789abcdef0123" /\
  String.length (generate_custom_id ("0123456789abcdef0123" +:+ "456789abcdef"))
    = 20%nat /\
  (forall c, generate_custom_id ("0123456789abcdef0123" +:+ "456789abcdef")
             = generate_custom_id ("0123456789abcdef0123" +:+ c)).
Proof.
  apply (generate_custom_id_prefix "0123456789abcdef0123" "456789abcdef").
  reflexivity.
Defined.

(** ** The import endpoint, refusals *)

(** X7: a request without the file part, with an empty file name or with a
    name that is not allowed is answered 400 with [success] false, and
    nothing changes: no file is saved, nothing is parsed or stored, no
    identifier is drawn.  A fault of the save is answered 500, also with
    nothing changed. *)
Theorem upload_refused_leaves_world secure_filename read_csv uuid4_hex
    set_fault save_fault w :
  let upload := upload_personas_csv secure_filename read_csv uuid4_hex
                  set_fault in
  upload None save_fault w
    = (w, failure "No se encontró el archivo en la solicitud" 400) /\
  (forall file,
     filename file = EmptyString \/ allowed_file (filename file) = false ->
     fst (upload (Some file) save_fault w) = w /\
     status (snd (upload (Some file) save_fault w)) = 400 /\
     body (snd (upload (Some file) save_fault w)) !! "success"
       = Some (JBool false)) /\
  (forall file e,
     filename file <> EmptyString ->
     allowed_file (filename file) = true ->
     upload (Some file) (Some e) w
       = (w, failure ("Error en el servidor: " +:+ str_exn e) 500)).
Proof.
  intros upload. subst upload. split; [done|]. split.
  - intros file [Hempty|Hnot]; unfold upload_personas_csv.
    + by rewrite Hempty.
    + rewrite Hnot. by destruct (String.eqb _ _).
  - intros file e Hname Hallowed. unfold upload_personas_csv.
    by rewrite (proj2 (String.eqb_neq _ _) Hname), Hallowed.
Qed.

Lemma upload_refused_leaves_world_witness :
  let out := upload_personas_csv keep_name sample_read_csv sample_uuid4_hex
               no_fault (Some (Upload "personas.csv.txt" people_csv)) None
               fresh_world in
  fst out = fresh_world /\
  status (snd out) = 400 /\
  body (snd out) !! "success" = Some (JBool false).
Proof.
  apply (proj1 (proj2 (upload_refused_leaves_world keep_name sample_read_csv
                         sample_uuid4_hex no_fault None fresh_world))
           (Upload "personas.csv.txt" people_csv)).
  right. reflexivity.
Defined.

(** X8: when the parser raises, the import is abandoned as a whole: the
    answer is 400 with the text of the exception, no row is stored and no
    identifier is drawn. *)
Theorem parse_failure_stores_nothing secure_filename read_csv uuid4_hex
    set_fault file w e :
  filename file <> EmptyString ->
  allowed_file (filename file) = true ->
  read_csv (content file) = Raise e ->
  let out := upload_personas_csv secure_filename read_csv uuid4_hex
               set_fault (Some file) None w in
  snd out = failure ("Error leyendo el archivo CSV: " +:+ str_exn e) 400 /\
  db (fst out) = db w /\
  drawn (fst out) = drawn w.
Proof.
  intros Hname Hallowed Hparse out. subst out.
  unfold upload_personas_csv.
  rewrite (proj2 (String.eqb_neq _ _) Hname), Hallowed. simpl negb. cbv iota.
  by rewrite Hparse.
Qed.

Lemma parse_failure_stores_nothing_witness :
  let out := upload_personas_csv keep_name sample_read_csv sample_uuid4_hex
               no_fault (Some (Upload "personas.csv" EmptyString)) None
               (World ∅ (Some (sample_docs 2)) 7) in
  snd out = failure ("Error leyendo el archivo CSV: "
                     +:+ "No columns to parse from file") 400 /\
  db (fst out) = Some (sample_docs 2) /\
  drawn (fst out) = 7%nat.
Proof.
  apply (parse_failure_stores_nothing keep_name sample_read_csv
           sample_uuid4_hex no_fault (Upload "personas.csv" EmptyString)
           (World ∅ (Some (sample_docs 2)) 7)
           (Exn LibraryError "No columns to parse from file")).
  - by vm_compute.
  - reflexivity.
  - reflexivity.
Defined.

(** ** The import endpoint, whatever the store does *)

(** X9: every row of a parsed upload is either counted as inserted or
    reported once, whether the client exists or not and whichever writes
    raise: inserted + rejected = total. *)
Theorem import_accounts_for_every_row secure_filename read_csv uuid4_hex
    set_fault file save_fault w rows :
  parsed_as read_csv file save_fault rows ->
  let r := snd (upload_personas_csv secure_filename read_csv uuid4_hex
                  set_fault (Some file) save_fault w) in
  exists accepted : nat,
    body r !! "inserted_count" = Some (JInt (Z.of_nat accepted)) /\
    body r !! "total_records" = Some (JInt (Z.of_nat (length rows))) /\
    (accepted + length (rejection_list r))%nat = length rows /\
    status r = (if (0 <? accepted)%nat then 200 else 400).
Proof.
  intros Hp r. subst r.
  rewrite (upload_completes _ _ _ _ _ _ _ _ Hp). simpl snd.
  set (ls0 := LoopState 0 [] (db w) (drawn w)).
  destruct (import_rows_spec uuid4_hex set_fault 0 rows ls0)
    as (He & Hn & _ & _).
  rewrite import_response_errors, import_response_status.
  destruct (import_response_counts
              (inserted_count (import_rows uuid4_hex set_fault 0 rows ls0))
              (errors (import_rows uuid4_hex set_fault 0 rows ls0))
              (length rows)) as [Hi Ht].
  eexists. split; [exact Hi|]. split; [exact Ht|]. split; [|done].
  rewrite He. simpl. rewrite length_map. simpl in Hn. lia.
Qed.

Lemma import_accounts_for_every_row_witness :
  let r := snd (upload_personas_csv keep_name sample_read_csv
                  sample_uuid4_hex third_write_fails
                  (Some (Upload "personas.csv" people_csv)) None fresh_world) in
  exists accepted : nat,
    body r !! "inserted_count" = Some (JInt (Z.of_nat accepted)) /\
    body r !! "total_records" = Some (JInt (Z.of_nat (length people_rows))) /\
    (accepted + length (rejection_list r))%nat = length people_rows /\
    status r = (if (0 <? accepted)%nat then 200 else 400).
Proof.
  apply (import_accounts_for_every_row keep_name sample_read_csv
           sample_uuid4_hex third_write_fails
           (Upload "personas.csv" people_csv) None fresh_world people_rows).
  repeat split; by vm_compute.
Defined.

Lemma rejections_without_client set_fault index rows :
  length (rejections set_fault false index rows) = length rows.
Proof.
  revert index. induction rows as [|d rows IH]; intros index; simpl; [done|].
  rewrite length_app, IH. unfold row_error.
  by destruct (snd (validate_persona_data d)) as [[[] msg]|e].
Qed.

(** X10: without a client of the store, an upload that parses stores
    nothing: every row is reported, the answer is 400 with 0 inserted, the
    client stays absent, and one identifier was still drawn for each row
    that the validator accepts. *)
Theorem import_without_client secure_filename read_csv uuid4_hex
    set_fault file save_fault w rows :
  parsed_as read_csv file save_fault rows ->
  db w = None ->
  let out := upload_personas_csv secure_filename read_csv uuid4_hex
               set_fault (Some file) save_fault w in
  body (snd out) !! "inserted_count" = Some (JInt 0) /\
  length (rejection_list (snd out)) = length rows /\
  status (snd out) = 400 /\
  db (fst out) = None /\
  drawn (fst out) = (drawn w + count_if accepted_by_validator rows)%nat.
Proof.
  intros Hp Hdb out. subst out.
  rewrite (upload_completes _ _ _ _ _ _ _ _ Hp). simpl fst. simpl snd.
  set (ls0 := LoopState 0 [] (db w) (drawn w)).
  destruct (import_rows_spec uuid4_hex set_fault 0 rows ls0)
    as (He & Hn & Hk & Hc).
  assert (client_of ls0 = false) as Hc0.
  { unfold client_of, ls0. simpl. rewrite Hdb.
    apply bool_decide_eq_false_2. by intros [? ?]. }
  rewrite Hc0 in He, Hn, Hc.
  rewrite rejections_without_client in Hn. simpl in Hn.
  assert (inserted_count (import_rows uuid4_hex set_fault 0 rows ls0) = 0%nat)
    as Hzero by lia.
  rewrite import_response_errors, import_response_status, Hzero.
  split; [apply import_response_counts|].
  split; [rewrite He; simpl; by rewrite length_map, rejections_without_client|].
  split; [done|]. split; [|exact Hk].
  unfold client_of in Hc. apply bool_decide_eq_false_1 in Hc.
  simpl db. destruct (loop_db _); [|done]. destruct Hc. by eexists.
Qed.

Lemma import_without_client_witness :
  let out := upload_personas_csv keep_name sample_read_csv sample_uuid4_hex
               no_fault (Some (Upload "personas.csv" people_csv)) None
               (World ∅ None 0) in
  body (snd out) !! "inserted_count" = Some (JInt 0) /\
  length (rejection_list (snd out)) = length people_rows /\
  status (snd out) = 400 /\
  db (fst out) = None /\
  drawn (fst out) = (0 + count_if accepted_by_validator people_rows)%nat.
Proof.
  apply (import_without_client keep_name sample_read_csv sample_uuid4_hex
           no_fault (Upload "personas.csv" people_csv) None (World ∅ None 0)
           people_rows).
  - repeat split; by vm_compute.
  - reflexivity.
Defined.

(** X11: a file that parses into no row at all is answered 400, with 0
    inserted out of 0 and no [errors] entry; the store is left as it was
    and the saved file is removed. *)
Theorem import_of_empty_table secure_filename read_csv uuid4_hex
    set_fault file save_fault w :
  parsed_as read_csv file save_fault [] ->
  let out := upload_personas_csv secure_filename read_csv uuid4_hex
               set_fault (Some file) save_fault w in
  status (snd out) = 400 /\
  body (snd out) !! "inserted_count" = Some (JInt 0) /\
  body (snd out) !! "total_records" = Some (JInt 0) /\
  body (snd out) !! "errors" = None /\
  db (fst out) = db w /\
  drawn (fst out) = drawn w /\
  files (fst out) !! saved_path secure_filename file = None.
Proof.
  intros Hp out. subst out.
  rewrite (upload_completes _ _ _ _ _ _ _ _ Hp). simpl.
  repeat split; try done. apply lookup_delete_eq.
Qed.

Lemma import_of_empty_table_witness :
  let out := upload_personas_csv keep_name header_only sample_uuid4_hex
               no_fault (Some (Upload "personas.csv" "name,age")) None
               fresh_world in
  status (snd out) = 400 /\
  body (snd out) !! "inserted_count" = Some (JInt 0) /\
  body (snd out) !! "total_records" = Some (JInt 0) /\
  body (snd out) !! "errors" = None /\
  db (fst out) = db fresh_world /\
  drawn (fst out) = drawn fresh_world /\
  files (fst out) !! saved_path keep_name (Upload "personas.csv" "name,age")
    = None.
Proof.
  apply (import_of_empty_table keep_name header_only sample_uuid4_hex
           no_fault (Upload "personas.csv" "name,age") None fresh_world).
  repeat split; by vm_compute.
Defined.

(** ** The store across an import *)

Section StoreAcrossImport.

Variable uuid4_hex : nat -> string.
Variable set_fault : nat -> option exn.

Local Abbreviation import_row := (import_row uuid4_hex set_fault).
Local Abbreviation import_rows := (import_rows uuid4_hex set_fault).

(** One iteration either leaves the store and the count as they are, or
    writes the validated row under the identifier it draws and counts it. *)
Lemma import_row_store index data ls docs :
  loop_db ls = Some docs ->
  let ls' := import_row index data ls in
  loop_drawn ls' =
    (loop_drawn ls + if accepted_by_validator data then 1 else 0)%nat /\
  ((loop_db ls' = Some docs /\ inserted_count ls' = inserted_count ls) \/
   (accepted_by_validator data = true /\
    loop_db ls' = Some (<[nth_id uuid4_hex (loop_drawn ls) 0 :=
                            fst (validate_persona_data data)]> docs) /\
    inserted_count ls' = S (inserted_count ls))).
Proof.
  intros Hdb ls'. subst ls'.
  split; [apply import_row_spec|].
  unfold import_row, accepted_by_validator, nth_id.
  rewrite Nat.add_0_r.
  destruct (validate_persona_data data) as [data' [[[] msg]|e]]; simpl;
    rewrite ?Hdb; simpl; auto.
  destruct (set_fault index); simpl; auto.
Qed.

Lemma nth_id_shift drawn k :
  nth_id uuid4_hex (drawn + 1) k = nth_id uuid4_hex drawn (S k).
Proof. unfold nth_id. do 2 f_equal. lia. Qed.

(** The loop only adds documents, and only under identifiers it draws. *)
Lemma import_rows_frame index rows ls docs :
  loop_db ls = Some docs ->
  exists docs', loop_db (import_rows index rows ls) = Some docs' /\
    dom docs ⊆ dom docs' /\
    (forall id,
       (forall k, (k < count_if accepted_by_validator rows)%nat ->
                  nth_id uuid4_hex (loop_drawn ls) k <> id) ->
       docs' !! id = docs !! id).
Proof.
  revert index ls docs.
  induction rows as [|d rows IH]; intros index ls docs Hdb; simpl.
  - exists docs. by repeat split.
  - destruct (import_row_store index d ls docs Hdb)
      as (Hk & [[Hsame _]|(Hacc & Hins & _)]).
    + destruct (IH (S index) _ docs Hsame) as (docs' & Hdb' & Hdom & Hfr).
      exists docs'. split; [done|]. split; [done|].
      intros id Hfresh. apply Hfr. intros k Hlt. rewrite Hk.
      destruct (accepted_by_validator d).
      * rewrite nth_id_shift. apply Hfresh. lia.
      * rewrite Nat.add_0_r. apply Hfresh. lia.
    + destruct (IH (S index) _ _ Hins) as (docs' & Hdb' & Hdom & Hfr).
      exists docs'. split; [done|]. split.
      * etrans; [apply dom_insert_subseteq|exact Hdom].
      * intros id Hfresh. rewrite Hfr.
        -- apply lookup_insert_ne. apply Hfresh. rewrite Hacc. lia.
        -- intros k Hlt. rewrite Hk, Hacc, nth_id_shift.
           apply Hfresh. rewrite Hacc. lia.
Qed.

(** The count of inserted rows bounds the growth of the store, and is the
    growth when the identifiers drawn are new and pairwise distinct. *)
Lemma import_rows_size index rows ls docs :
  loop_db ls = Some docs ->
  exists docs', loop_db (import_rows index rows ls) = Some docs' /\
    (size docs' + inserted_count ls
     <= size docs + inserted_count (import_rows index rows ls))%nat /\
    ((forall k, (k < count_if accepted_by_validator rows)%nat ->
                docs !! nth_id uuid4_hex (loop_drawn ls) k = None) ->
     (forall k k', (k < count_if accepted_by_validator rows)%nat ->
                   (k' < count_if accepted_by_validator rows)%nat ->
                   nth_id uuid4_hex (loop_drawn ls) k
                   = nth_id uuid4_hex (loop_drawn ls) k' -> k = k') ->
     (size docs' + inserted_count ls
      = size docs + inserted_count (import_rows index rows ls))%nat).
Proof.
  revert index ls docs.
  induction rows as [|d rows IH]; intros index ls docs Hdb; simpl.
  - exists docs. split; [done|]. split; [lia|]. intros _ _. lia.
  - destruct (import_row_store index d ls docs Hdb)
      as (Hk & [[Hsame Hn]|(Hacc & Hins & Hn)]).
    + destruct (IH (S index) _ docs Hsame) as (docs' & Hdb' & Hle & Heq).
      exists docs'. split; [done|]. rewrite Hn in Hle, Heq.
      split; [done|].
      intros Hnew Hinj. apply Heq.
      * intros k Hlt. rewrite Hk.
        destruct (accepted_by_validator d).
        -- rewrite nth_id_shift. apply Hnew. lia.
        -- rewrite Nat.add_0_r. apply Hnew. lia.
      * intros k k' Hlt Hlt'. rewrite Hk.
        destruct (accepted_by_validator d).
        -- rewrite !nth_id_shift. intros He.
           apply Hinj in He; lia.
        -- rewrite Nat.add_0_r. apply Hinj; lia.
    + destruct (IH (S index) _ _ Hins) as (docs' & Hdb' & Hle & Heq).
      exists docs'. split; [done|]. rewrite Hn in Hle, Heq.
      rewrite Hacc in *.
      pose proof (map_size_insert (nth_id uuid4_hex (loop_drawn ls) 0)
                    (fst (validate_persona_data d)) docs) as Hsize.
      split.
      * destruct (docs !! nth_id uuid4_hex (loop_drawn ls) 0);
          simpl in Hsize; lia.
      * intros Hnew Hinj.
        rewrite (Hnew 0%nat) in Hsize by lia. simpl in Hsize.
        rewrite Hk in Heq.
        assert (forall k, (k < count_if accepted_by_validator rows)%nat ->
                  <[nth_id uuid4_hex (loop_drawn ls) 0 :=
                      fst (validate_persona_data d)]> docs
                  !! nth_id uuid4_hex (loop_drawn ls + 1) k = None) as Hnew'.
        { intros k Hlt. rewrite nth_id_shift.
          rewrite lookup_insert_ne; [apply Hnew; lia|].
          intros He. apply Hinj in He; lia. }
        assert (forall k k', (k < count_if accepted_by_validator rows)%nat ->
                  (k' < count_if accepted_by_validator rows)%nat ->
                  nth_id uuid4_hex (loop_drawn ls + 1) k
                  = nth_id uuid4_hex (loop_drawn ls + 1) k' -> k = k') as Hinj'.
        { intros k k' Hlt Hlt'. rewrite !nth_id_shift. intros He.
          apply Hinj in He; lia. }
        specialize (Heq Hnew' Hinj'). lia.
Qed.

End StoreAcrossImport.

(** X12: an import never removes a document, and it leaves every document
    (or absence of one) as it was under each identifier that it does not
    draw. *)
Theorem import_keeps_other_documents secure_filename read_csv uuid4_hex
    set_fault file save_fault w rows docs :
  parsed_as read_csv file save_fault rows ->
  db w = Some docs ->
  let w' := fst (upload_personas_csv secure_filename read_csv uuid4_hex
                   set_fault (Some file) save_fault w) in
  exists docs', db w' = Some docs' /\
    dom docs ⊆ dom docs' /\
    (forall id,
       (forall k, (k < count_if accepted_by_validator rows)%nat ->
                  nth_id uuid4_hex (drawn w) k <> id) ->
       forall read_fault,
         get_person read_fault id (db w') = get_person read_fault id (db w)).
Proof.
  intros Hp Hdb w'. subst w'.
  rewrite (upload_completes _ _ _ _ _ _ _ _ Hp). simpl fst. simpl db.
  destruct (import_rows_frame uuid4_hex set_fault 0 rows
              (LoopState 0 [] (db w) (drawn w)) docs Hdb)
    as (docs' & Hdb' & Hdom & Hfr).
  exists docs'. split; [done|]. split; [done|].
  intros id Hfresh read_fault. rewrite Hdb', Hdb. unfold get_person.
  by rewrite (Hfr id Hfresh).
Qed.

Lemma import_keeps_other_documents_witness :
  let w := World ∅ (Some (sample_docs 2)) 0 in
  let w' := fst (upload_personas_csv keep_name sample_read_csv
                   sample_uuid4_hex no_fault
                   (Some (Upload "personas.csv" people_csv)) None w) in
  exists docs', db w' = Some docs' /\
    dom (sample_docs 2) ⊆ dom docs' /\
    (forall id,
       (forall k, (k < count_if accepted_by_validator people_rows)%nat ->
                  nth_id sample_uuid4_hex 0 k <> id) ->
       forall read_fault,
         get_person read_fault id (db w') = get_person read_fault id (db w)).
Proof.
  apply (import_keeps_other_documents keep_name sample_read_csv
           sample_uuid4_hex no_fault (Upload "personas.csv" people_csv) None
           (World ∅ (Some (sample_docs 2)) 0) people_rows (sample_docs 2)).
  - repeat split; by vm_compute.
  - reflexivity.
Defined.

(** X13: the store grows by at most the number of rows counted as
    inserted, and by exactly that number when the identifiers drawn during
    the import are unused in the store and pairwise distinct. *)
Theorem import_store_growth secure_filename read_csv uuid4_hex
    set_fault file save_fault w rows docs :
  parsed_as read_csv file save_fault rows ->
  db w = Some docs ->
  let out := upload_personas_csv secure_filename read_csv uuid4_hex
               set_fault (Some file) save_fault w in
  let ids := nth_id uuid4_hex (drawn w)
               <$> seq 0 (count_if accepted_by_validator rows) in
  exists docs' (accepted : nat),
    db (fst out) = Some docs' /\
    body (snd out) !! "inserted_count" = Some (JInt (Z.of_nat accepted)) /\
    (size docs' <= size docs + accepted)%nat /\
    (NoDup ids -> Forall (fun id => docs !! id = None) ids ->
     size docs' = (size docs + accepted)%nat).
Proof.
  intros Hp Hdb out ids. subst out.
  rewrite (upload_completes _ _ _ _ _ _ _ _ Hp). simpl fst. simpl snd.
  simpl db.
  set (ls0 := LoopState 0 [] (db w) (drawn w)).
  destruct (import_rows_size uuid4_hex set_fault 0 rows ls0 docs Hdb)
    as (docs' & Hdb' & Hle & Heq).
  exists docs', (inserted_count (import_rows uuid4_hex set_fault 0 rows ls0)).
  split; [done|]. split; [apply import_response_counts|].
  simpl in Hle, Heq. split; [lia|].
  intros Hnd Hnew. rewrite <- Heq; [lia| |].
  - intros k Hlt. rewrite Forall_forall in Hnew. apply Hnew.
    apply list_elem_of_fmap. exists k. split; [done|].
    apply elem_of_seq. lia.
  - intros k k' Hlt Hlt' He.
    by apply (NoDup_fmap_seq_inj _ _ _ _ Hnd Hlt Hlt').
Qed.

Lemma import_store_growth_witness :
  let out := upload_personas_csv keep_name sample_read_csv sample_uuid4_hex
               no_fault (Some (Upload "personas.csv" people_csv)) None
               fresh_world in
  let ids := nth_id sample_uuid4_hex 0
               <$> seq 0 (count_if accepted_by_validator people_rows) in
  exists docs' (accepted : nat),
    db (fst out) = Some docs' /\
    body (snd out) !! "inserted_count" = Some (JInt (Z.of_nat accepted)) /\
    (size docs' <= size (∅ : gmap string (gmap string value)) + accepted)%nat /\
    (NoDup ids ->
     Forall (fun id => (∅ : gmap string (gmap string value)) !! id = None) ids ->
     size docs' = (size (∅ : gmap string (gmap string value)) + accepted)%nat).
Proof.
  apply (import_store_growth keep_name sample_read_csv sample_uuid4_hex
           no_fault (Upload "personas.csv" people_csv) None fresh_world
           people_rows ∅).
  - repeat split; by vm_compute.
  - reflexivity.
Defined.

(** ** The endpoints on one document *)



Lemma args_get_int_not_literal s e default :
  py_int (VStr s) = Raise e ->
  args_get_int (Some s) default = args_get_int None default.
Proof.
  intros He. unfold args_get_int. rewrite He. reflexivity.
Qed.

(** X15: a limit that is absent, that is not an integer literal, or that
    is 10 or more gives the answer of a request without limit; a page that
    is not an integer literal gives the answer of a request without
    page. *)
Theorem list_parameter_defaults stream_page limit_arg page_arg db :
  (10 <= args_get_int limit_arg 10 ->
   get_persons stream_page limit_arg page_arg db
   = get_persons stream_page None page_arg db) /\
  (forall s e, py_int (VStr s) = Raise e ->
   get_persons stream_page (Some s) page_arg db
   = get_persons stream_page None page_arg db) /\
  (forall s e, py_int (VStr s) = Raise e ->
   get_persons stream_page limit_arg (Some s) db
   = get_persons stream_page limit_arg None db).
Proof.
  split; [|split].
  - intros Hge. unfold get_persons.
    replace (clamp_limit (args_get_int limit_arg 10))
      with (clamp_limit (args_get_int None 10)); [done|].
    rewrite !clamp_limit_min. simpl. lia.
  - intros s e He. unfold get_persons.
    by rewrite (args_get_int_not_literal s e 10 He).
  - intros s e He. unfold get_persons.
    by rewrite (args_get_int_not_literal s e 1 He).
Qed.

Lemma list_parameter_defaults_witness :
  get_persons sample_stream_page (Some "500") (Some "2") (Some (sample_docs 3))
  = get_persons sample_stream_page None (Some "2") (Some (sample_docs 3)).
Proof.
  apply (proj1 (list_parameter_defaults sample_stream_page (Some "500")
                  (Some "2") (Some (sample_docs 3)))).
  by vm_compute.
Defined.



(** X17: updating a stored document, when the body is read and the store
    accepts the update, answers 200 and replaces the fields of that
    document by those the store computed: fetching it (without fault of
    the read) returns them, every other identifier is answered as before,
    and no document is added or removed. *)
Theorem update_person_replaces (Body : Type)
    (doc_update : gmap string value -> Body -> result (gmap string value))
    id data docs fields fields' :
  docs !! id = Some fields ->
  doc_update fields data = Return fields' ->
  let out := update_person Body doc_update id (Return data) (Some docs) in
  out = (Some (<[id := fields']> docs),
         done_response "Person updated successfully") /\
  get_person None id (fst out) =
    (<["success" := JBool true]>
     (<["data" := JDoc (<["id" := VStr id]> fields')]> ∅), 200) /\
  (forall read_fault other, other <> id ->
     get_person read_fault other (fst out)
     = get_person read_fault other (Some docs)) /\
  (forall docs', fst out = Some docs' -> dom docs' = dom docs).
Proof.
  intros Hid Hup out.
  assert (out = (Some (<[id := fields']> docs),
                 done_response "Person updated successfully")) as ->.
  { subst out. unfold update_person. by rewrite Hid, Hup. }
  simpl fst. split; [done|]. split; [|split].
  - unfold get_person. by rewrite lookup_insert_eq.
  - intros read_fault other Hne. unfold get_person.
    by rewrite lookup_insert_ne.
  - intros docs' [= <-]. apply dom_insert_lookup_L. by eexists.
Qed.

Lemma update_person_replaces_witness :
  let docs := sample_docs 3 in
  let fields := sample_row (VInt 1) (VBool true) in
  let data : gmap string value := <["country" := VStr "PE"]> ∅ in
  let out := update_person (gmap string value) sample_doc_update "1"
               (Return data) (Some docs) in
  out = (Some (<["1" := data ∪ fields]> docs),
         done_response "Person updated successfully") /\
  get_person None "1" (fst out) =
    (<["success" := JBool true]>
     (<["data" := JDoc (<["id" := VStr "1"]> (data ∪ fields))]> ∅), 200) /\
  (forall read_fault other, other <> "1" ->
     get_person read_fault other (fst out)
     = get_person read_fault other (Some docs)) /\
  (forall docs', fst out = Some docs' -> dom docs' = dom docs).
Proof.
  intros docs fields data.
  apply (update_person_replaces (gmap string value) sample_doc_update "1"
           data docs fields (data ∪ fields)).
  - reflexivity.
  - reflexivity.
Defined.

(** X19: an update whose body cannot be read, or that the store refuses,
    is answered 500 with the text of the exception and changes nothing;
    the body is read first, so an unreadable body is a 500 even for an
    identifier that is not stored. *)
Theorem update_person_failures (Body : Type)
    (doc_update : gmap string value -> Body -> result (gmap string value))
    id db e :
  update_person Body doc_update id (Raise e) db
    = (db, failure ("Error updating person: " +:+ str_exn e) 500) /\
  (forall data docs fields,
     db = Some docs ->
     docs !! id = Some fields ->
     doc_update fields data = Raise e ->
     update_person Body doc_update id (Return data) db
       = (db, failure ("Error updating person: " +:+ str_exn e) 500)).
Proof.
  split; [done|].
  intros data docs fields -> Hid Hup. unfold update_person.
  by rewrite Hid, Hup.
Qed.

Lemma update_person_failures_witness :
  let db := Some (sample_docs 3) in
  let data : gmap string value := <["country" := VStr "PE"]> ∅ in
  update_person (gmap string value) refused_doc_update "1" (Return data) db
  = (db, failure ("Error updating person: " +:+ "permission denied") 500).
Proof.
  intros db data.
  apply (proj2 (update_person_failures (gmap string value) refused_doc_update
                  "1" db (Exn LibraryError "permission denied"))
           data (sample_docs 3) (sample_row (VInt 1) (VBool true))).
  - reflexivity.
  - reflexivity.
  - reflexivity.
Defined.

(** X20: when the client of the store could not be created, fetching,
    listing, updating and deleting all answer 500 with [success] false,
    and the client stays absent. *)
Theorem endpoints_without_client (Body : Type)
    (doc_update : gmap string value -> Body -> result (gmap string value))
    stream_page e id limit_arg page_arg data read_fault delete_fault :
  let db := initialize_firebase (Raise e) in
  let answers :=
    [ get_person read_fault id db;
      get_persons stream_page limit_arg page_arg db;
      snd (update_person Body doc_update id (Return data) db);
      snd (delete_person read_fault delete_fault id db) ] in
  Forall (fun r => status r = 500 /\ body r !! "success" = Some (JBool false))
    answers /\
  fst (update_person Body doc_update id (Return data) db) = None /\
  fst (delete_person read_fault delete_fault id db) = None.
Proof.
  simpl. split; [|done]. repeat constructor.
Qed.
